(** * traverse: a verification development for the UI test-automation helpers

  The development embeds the four Python modules of the repository:

  - [core/core_details.py]      (module [CoreDetails]):  the test record and
    its process-wide id counter;
  - [utilities/database.py]     (modules [Database], [DatabaseOps]): the
    connection retry loop, the query helpers and the script tokens;
  - [utilities/string_helper.py] (module [StringHelper]): the email, csv
    and list helpers, on the string methods of module [PyStr];
  - [driver/driver_interface.py] (module [DriverInterface]): the hook
    registry, locator resolution, the interaction methods, screenshots,
    capabilities and the construction of a session.

  Python code with effects is written in a small state-and-exception monad
  over an explicit world; external collaborators (the browser engine, the
  database client libraries, the file system) are oracles of a Section. *)

From stdpp Require Import gmap strings list fin_maps pretty.
From Equations Require Import Equations.
From Stdlib Require Import Sorted Ascii.

Set Default Proof Using "Type".
Local Open Scope string_scope.
Local Open Scope list_scope.

(** ** Python values, exceptions and the effect monad *)

Module Py.

(** The Python objects that flow through the modelled code: [None], the
    booleans (the code uses [False] as its "not given" sentinel), integers
    and strings. *)
Inductive value : Type :=
| VNone
| VBool (b : bool)
| VInt (z : Z)
| VStr (s : string).

#[global] Instance value_eq_dec : EqDecision value.
Proof. solve_decision. Defined.

(** [x is False]: identity with the [False] singleton. *)
Definition is_False (x : value) : bool :=
  match x with VBool false => true | _ => false end.

(** Exceptions, by class.  [Exception_ msg] is a bare [Exception(msg)];
    [EngineError] stands for whatever a third-party library raises. *)
Inductive exn : Type :=
| AttributeError (msg : string)
| KeyError (key : string)
| FileNotFoundError (path : string)
| Exception_ (msg : string)
| DatabaseReturnedNothingError
| EngineError (msg : string).

#[global] Instance exn_eq_dec : EqDecision exn.
Proof. solve_decision. Defined.

Inductive result (A : Type) : Type :=
| Ok (a : A)
| Raise (e : exn).
Arguments Ok {A} a.
Arguments Raise {A} e.

(** A computation over a world [W]: it returns or raises, and leaves a world. *)
Definition M (W A : Type) : Type := W -> result A * W.

Definition ret {W A} (a : A) : M W A := fun w => (Ok a, w).
Definition raise {W A} (e : exn) : M W A := fun w => (Raise e, w).
Definition bind {W A B} (c : M W A) (k : A -> M W B) : M W B :=
  fun w => match c w with
           | (Ok a, w') => k a w'
           | (Raise e, w') => (Raise e, w')
           end.
Definition get {W} : M W W := fun w => (Ok w, w).
Definition modify {W} (f : W -> W) : M W unit := fun w => (Ok tt, f w).

End Py.

Declare Scope py_scope.
Delimit Scope py_scope with py.
Notation "x <- c ;; k" := (Py.bind c (fun x => k))
  (at level 100, c at next level, right associativity) : py_scope.
Notation "c ;;; k" := (Py.bind c (fun _ => k))
  (at level 100, right associativity) : py_scope.

(** ** core/core_details.py *)

Module CoreDetails.

(** [class TestStatus] *)
Module TestStatus.
Definition UNTESTED := "Untested".
Definition PASSED := "Passed".
Definition FAILED := "Failed".
Definition BLOCKED := "Blocked".
Definition RETEST := "Retest".
Definition IN_PROGRESS := "InProgress".
End TestStatus.

(** [itertools.count()]: the state of the iterator is the number it yields
    next; it starts at 0 and steps by 1. *)
Record count := { upcoming : nat }.
Definition itertools_count : count := {| upcoming := 0 |}.

(** [next(itr)] on a world that holds the class attribute [id_itr]. *)
Definition next : Py.M count nat :=
  fun itr => (Py.Ok (upcoming itr), {| upcoming := S (upcoming itr) |}).

(** [class TestDefinition]: the attributes set by [__init__]. *)
Record TestDefinition := {
  test_id : nat;
  test_pack : Py.value;
  test_suite : Py.value;
  test_name : Py.value;
  platform : Py.value;
  capability : Py.value;
  test_configuration : Py.value;
  test_status : string;
  test_start_time : Py.value;
  test_end_time : Py.value;
  comments : Py.value;
  screenshot_dir : Py.value
}.

(** [TestDefinition.__init__]; the world is the shared [id_itr]. *)
Definition __init__ : Py.M count TestDefinition :=
  (id <- next ;;
   Py.ret {| test_id := id;
             test_pack := Py.VNone;
             test_suite := Py.VNone;
             test_name := Py.VNone;
             platform := Py.VNone;
             capability := Py.VNone;
             test_configuration := Py.VNone;
             test_status := TestStatus.UNTESTED;
             test_start_time := Py.VNone;
             test_end_time := Py.VNone;
             comments := Py.VNone;
             screenshot_dir := Py.VNone |})%py.

(** [n] constructions one after the other, in construction order, with the
    iterator they leave behind. *)
Fixpoint construct (n : nat) (itr : count) : list TestDefinition * count :=
  match n with
  | 0 => ([], itr)
  | S n' =>
      match __init__ itr with
      | (Py.Ok t, itr') =>
          let '(ts, itr'') := construct n' itr' in (t :: ts, itr'')
      | (Py.Raise _, itr') => ([], itr')
      end
  end.

Definition ids (ts : list TestDefinition) : list nat := map test_id ts.

End CoreDetails.

(** ** utilities/database.py *)

Module Database.

(** [class DatabaseConnInfo].  [ssh_key] is only set when a key path was
    given to the constructor: without one the attribute does not exist. *)
Record DatabaseConnInfo := {
  db_name : Py.value;
  db_host : Py.value;
  db_port : Py.value;
  db_username : Py.value;
  db_password : Py.value;
  ssh_host : Py.value;
  ssh_user : Py.value;
  ssh_key : option Py.value
}.

(** What the process does to the outside while connecting, in order. *)
Inductive event : Type :=
| Attempt (i : nat)          (* the [try] body is entered for the i-th time *)
| Warn (err : Py.exn)        (* [warnings.warn(f'... {err}')] *)
| Sleep (secs : Z).          (* [time.sleep(secs)] *)

#[global] Instance event_eq_dec : EqDecision event.
Proof. solve_decision. Defined.

(** The world of the connection code: how many connection attempts the
    outside has seen, and the trace of events. *)
Record world := { attempts : nat; log : list event }.

Definition emit (e : event) : Py.M world unit :=
  Py.modify (fun w => {| attempts := attempts w; log := log w ++ [e] |}).

Definition warnings_warn (err : Py.exn) : Py.M world unit := emit (Warn err).
Definition time_sleep (secs : Z) : Py.M world unit := emit (Sleep secs).

(** The shared constant of both retry loops, and the exception the loop
    gives up with (the specification calls it ConnectionExhaustedError). *)
Definition retry_limit : nat := 3.
Definition delay : Z := 2.
Definition ConnectionExhaustedError : Py.exn :=
  Py.Exception_ "Unable to connect to Database. See console logs.".

Section Connect.

(** Connection handles, and the client libraries as oracles: what the i-th
    attempt meets when it opens the SSH tunnel ([None]: it opens) and when
    it calls the client's connect function. *)
Context {handle : Type}.
Variable SSHTunnelForwarder : DatabaseConnInfo -> nat -> option Py.exn.
Variable client_connect : DatabaseConnInfo -> nat -> Py.result handle.

(** Entering the [try] body: the outside sees one more attempt. *)
Definition begin_attempt : Py.M world nat :=
  fun w => (Py.Ok (attempts w),
            {| attempts := S (attempts w); log := log w ++ [Attempt (attempts w)] |}).

(** [with SSHTunnelForwarder(..., ssh_pkey=db_conn_info.ssh_key, ...) as _:
       return connect(...)] *)
Definition through_tunnel (info : DatabaseConnInfo) (i : nat) : Py.M world handle :=
  match ssh_key info with
  | None => Py.raise (Py.AttributeError "'DatabaseConnInfo' object has no attribute 'ssh_key'")
  | Some _ =>
      match SSHTunnelForwarder info i with
      | Some err => Py.raise err
      | None => fun w => (client_connect info i, w)
      end
  end.

Definition direct (info : DatabaseConnInfo) (i : nat) : Py.M world handle :=
  fun w => (client_connect info i, w).

(** The [try] body of [MySql.connect_to_db]: the tunnel is used when
    [use_ssh == 1]. *)
Definition mysql_try (info : DatabaseConnInfo) (use_ssh : Z) : Py.M world handle :=
  (i <- begin_attempt ;;
   if (use_ssh =? 1)%Z then through_tunnel info i else direct info i)%py.

(** The [try] body of [PostGre.connect_to_db]: no tunnel when
    [use_ssh == 0], the tunnel otherwise. *)
Definition postgre_try (info : DatabaseConnInfo) (use_ssh : Z) : Py.M world handle :=
  (i <- begin_attempt ;;
   if (use_ssh =? 0)%Z then direct info i else through_tunnel info i)%py.

(** The loop shared by both classes:
<<
    while True:
        if attempt <= retry_limit:
            try: return <body>
            except Exception as err:
                attempt = attempt + 1
                warnings.warn(...); time.sleep(delay)
        else:
            raise Exception('Unable to connect to Database. See console logs.')
>> *)
Equations? retry_loop (body : Py.M world handle) (attempt : nat) (w : world)
  : Py.result handle * world by wf (S retry_limit - attempt) lt :=
retry_loop body attempt w with decide (attempt <= retry_limit) => {
  | left _ with body w => {
      | (Py.Ok conn, w1) := (Py.Ok conn, w1);
      | (Py.Raise err, w1) :=
          retry_loop body (attempt + 1)
            (snd ((warnings_warn err ;;; time_sleep delay)%py w1)) };
  | right _ := (Py.Raise ConnectionExhaustedError, w) }.
Proof. unfold retry_limit in *. lia. Qed.

End Connect.

(** *** Queries *)

(** A row is a tuple of column values. *)
Definition row : Type := list Py.value.

(** A Python list object: its identity and its items.  Two list objects
    are the same object ([is]) exactly when their identities agree. *)
Record pylist := { ident : nat; items : list row }.

Definition is_ (a b : pylist) : bool := bool_decide (ident a = ident b).

Inductive db_call : Type :=
| CursorExecute (script : string)
| Fetchall
| Commit
| Close.

(** The world of the query code: the allocator of object identities, the
    result set the cursor holds after [execute], and the calls made on
    the connection. *)
Record session := {
  next_ident : nat;
  result_set : option (list row);
  calls : list db_call
}.

Definition record_call (c : db_call) : Py.M session unit :=
  Py.modify (fun s => {| next_ident := next_ident s;
                         result_set := result_set s;
                         calls := calls s ++ [c] |}).

(** Evaluating a list display such as [[]], or building the list a library
    call returns: a new object, with an identity no earlier object has. *)
Definition new_list (xs : list row) : Py.M session pylist :=
  fun s => (Py.Ok {| ident := next_ident s; items := xs |},
            {| next_ident := S (next_ident s);
               result_set := result_set s;
               calls := calls s |}).

Section Query.

(** The database behind a connection, as an oracle: the rows a script
    produces, or the error the client library raises for it. *)
Context {handle : Type}.
Variable run : handle -> string -> Py.result (list row).

Definition conn_cursor (conn : handle) : Py.M session handle := Py.ret conn.

Definition cursor_execute (cursor : handle) (script : string) : Py.M session unit :=
  (record_call (CursorExecute script) ;;;
   match run cursor script with
   | Py.Ok rows =>
       Py.modify (fun s => {| next_ident := next_ident s;
                              result_set := Some rows;
                              calls := calls s |})
   | Py.Raise err => Py.raise err
   end)%py.

Definition cursor_fetchall (cursor : handle) : Py.M session pylist :=
  (record_call Fetchall ;;;
   s <- Py.get ;;
   match result_set s with
   | Some rows => new_list rows
   | None => Py.raise (Py.EngineError "No result set to fetch from")
   end)%py.

Definition conn_commit (conn : handle) : Py.M session unit := record_call Commit.
Definition conn_close (conn : handle) : Py.M session unit := record_call Close.

(** The body of [MySql.execute_query_return_results] *)
Definition mysql_query_results (conn : handle) (script : string)
  : Py.M session pylist :=
  (cursor <- conn_cursor conn ;;
   cursor_execute cursor script ;;;
   raw_results <- cursor_fetchall cursor ;;
   empty <- new_list [] ;;
   if is_ raw_results empty then Py.raise Py.DatabaseReturnedNothingError
   else Py.ret raw_results)%py.

(** The body of [PostGre.execute_query_return_results] *)
Definition postgre_query_results (conn : handle) (script : string)
  : Py.M session pylist :=
  (cursor <- conn_cursor conn ;;
   cursor_execute cursor script ;;;
   results <- cursor_fetchall cursor ;;
   empty <- new_list [] ;;
   if is_ results empty
   then (conn_close conn ;;; Py.raise Py.DatabaseReturnedNothingError)
   else (conn_close conn ;;; Py.ret results))%py.

End Query.

(** [class MySql] *)
Module MySql.

Definition connect_to_db {handle} tunnel MySqlConnect
    (db_conn_info : DatabaseConnInfo) (use_ssh : Z) : Py.M world handle :=
  retry_loop (mysql_try (handle:=handle) tunnel MySqlConnect db_conn_info use_ssh) 0.

Definition execute_query_return_results {handle} run (conn : handle) (script : string)
  : Py.M session pylist :=
  mysql_query_results run conn script.

(** [MySql.execute_query] *)
Definition execute_query {handle} run (conn : handle) (script : string)
  : Py.M session bool :=
  (cursor <- conn_cursor conn ;;
   cursor_execute run cursor script ;;;
   conn_commit conn ;;;
   Py.ret true)%py.

End MySql.

(** [class PostGre] *)
Module PostGre.

Definition connect_to_db {handle} tunnel psycopg2_connect
    (db_conn_info : DatabaseConnInfo) (use_ssh : Z) : Py.M world handle :=
  retry_loop (postgre_try (handle:=handle) tunnel psycopg2_connect db_conn_info use_ssh) 0.

Definition execute_query_return_results {handle} run (conn : handle) (script : string)
  : Py.M session pylist :=
  postgre_query_results run conn script.

(** [PostGre.execute_query] *)
Definition execute_query {handle} run (conn : handle) (script : string)
  : Py.M session bool :=
  (cursor <- conn_cursor conn ;;
   cursor_execute run cursor script ;;;
   conn_close conn ;;;
   Py.ret true)%py.

End PostGre.

(** [class SqlLite3]: [conn.execute(script)] makes a cursor and runs the
    script on it. *)
Module SqlLite3.

Definition execute_script {handle} run (conn : handle) (script : string)
  : Py.M session bool :=
  (cursor_execute run conn script ;;;
   Py.ret true)%py.

Definition execute_script_get_all_results {handle} run (conn : handle) (script : string)
  : Py.M session pylist :=
  (cursor_execute run conn script ;;;
   rows <- cursor_fetchall conn ;;
   Py.ret rows)%py.

End SqlLite3.

(** *** Vocabulary of the statements about connecting *)

(** The two classes with a [connect_to_db] and an
    [execute_query_return_results]. *)
Inductive client : Type := MySqlClient | PostGreClient.

Definition try_body {handle} (c : client) tunnel connect
    (info : DatabaseConnInfo) (use_ssh : Z) : Py.M world handle :=
  match c with
  | MySqlClient => mysql_try tunnel connect info use_ssh
  | PostGreClient => postgre_try tunnel connect info use_ssh
  end.

Definition connect_to_db {handle} (c : client) tunnel connect
    (info : DatabaseConnInfo) (use_ssh : Z) : Py.M world handle :=
  match c with
  | MySqlClient => MySql.connect_to_db tunnel connect info use_ssh
  | PostGreClient => PostGre.connect_to_db tunnel connect info use_ssh
  end.

Definition execute_query_return_results {handle} (c : client) run
    (conn : handle) (script : string) : Py.M session pylist :=
  match c with
  | MySqlClient => MySql.execute_query_return_results run conn script
  | PostGreClient => PostGre.execute_query_return_results run conn script
  end.

(** The world after a failed round: the warning, then the sleep. *)
Definition after_failure (err : Py.exn) (w : world) : world :=
  {| attempts := attempts w; log := log w ++ [Warn err; Sleep delay] |}.

(** The trace of consecutive failed rounds, from attempt number [a]. *)
Fixpoint rounds (a : nat) (errs : list Py.exn) : list event :=
  match errs with
  | [] => []
  | err :: errs => Attempt a :: Warn err :: Sleep delay :: rounds (S a) errs
  end.

(** A [try] body is an attempt when it only adds its [Attempt] event and
    moves the attempt count on by one. *)
Definition is_attempt {handle} (body : Py.M world handle) : Prop :=
  forall w, (body w).2 =
    {| attempts := S (attempts w); log := log w ++ [Attempt (attempts w)] |}.

(** A target that refuses every connection, one that accepts the second,
    and a database without rows, for the examples. *)
Definition no_tunnel : DatabaseConnInfo -> nat -> option Py.exn := fun _ _ => None.
Definition refusing : DatabaseConnInfo -> nat -> Py.result nat :=
  fun _ _ => Py.Raise (Py.EngineError "connection refused").
Definition accepting_second : DatabaseConnInfo -> nat -> Py.result nat :=
  fun _ i => if bool_decide (i = 1) then Py.Ok 7 else Py.Raise (Py.EngineError "connection refused").
Definition localhost : DatabaseConnInfo :=
  {| db_name := Py.VStr "test"; db_host := Py.VStr "localhost"; db_port := Py.VInt 3306;
     db_username := Py.VStr "root"; db_password := Py.VStr "secret";
     ssh_host := Py.VNone; ssh_user := Py.VNone; ssh_key := None |}.
Definition fresh : world := {| attempts := 0; log := [] |}.
Definition no_rows : nat -> string -> Py.result (list row) := fun _ _ => Py.Ok [].
Definition idle : session := {| next_ident := 0; result_set := None; calls := [] |}.

(** A target that refuses the first [n] connections and accepts from then
    on, a tunnel that never opens, connection data with a key, and a
    database where every script fails. *)
Definition accepting_from (n : nat) : DatabaseConnInfo -> nat -> Py.result nat :=
  fun _ i => if bool_decide (n <= i) then Py.Ok i else Py.Raise (Py.EngineError "connection refused").
Definition closed_tunnel : DatabaseConnInfo -> nat -> option Py.exn :=
  fun _ _ => Some (Py.EngineError "could not establish session to SSH gateway").
Definition keyed : DatabaseConnInfo :=
  {| db_name := Py.VStr "test"; db_host := Py.VStr "db.internal"; db_port := Py.VInt 5432;
     db_username := Py.VStr "root"; db_password := Py.VStr "secret";
     ssh_host := Py.VStr "gateway"; ssh_user := Py.VStr "deploy";
     ssh_key := Some (Py.VStr "rsa-key") |}.
Definition failing_scripts : nat -> string -> Py.result (list row) :=
  fun _ _ => Py.Raise (Py.EngineError "syntax error").
Definition two_rows : nat -> string -> Py.result (list row) :=
  fun _ _ => Py.Ok [[Py.VInt 1; Py.VStr "ann"]; [Py.VInt 2; Py.VStr "bob"]].

(** The events of a trace that are attempts, and those that are sleeps. *)
Definition is_Attempt (e : event) : bool :=
  match e with Attempt _ => true | _ => false end.
Definition is_Sleep (e : event) : bool :=
  match e with Sleep _ => true | _ => false end.

End Database.

(** ** String methods of Python *)

Module PyStr.

(** [s.startswith(sub)] *)
Fixpoint starts_with (sub s : string) : bool :=
  match sub, s with
  | EmptyString, _ => true
  | String a sub', String b s' => if Ascii.eqb a b then starts_with sub' s' else false
  | String _ _, EmptyString => false
  end.

(** [s.replace(old, new)] for a non-empty [old]: the text is read from the
    left; where [old] starts, [new] is written and the rest of that
    occurrence ([skip] characters) is passed over. *)
Fixpoint replace_from (old new : string) (skip : nat) (s : string) : string :=
  match s with
  | EmptyString => EmptyString
  | String c r =>
      match skip with
      | S k => replace_from old new k r
      | 0 =>
          if starts_with old s
          then new +:+ replace_from old new (String.length old - 1) r
          else String c (replace_from old new 0 r)
      end
  end.

(** [s.replace("", new)] without its leading [new]: [new] after every
    character. *)
Fixpoint interleave (new s : string) : string :=
  match s with
  | EmptyString => EmptyString
  | String c r => String c (new +:+ interleave new r)
  end.

(** [s.replace(old, new)] *)
Definition replace (s old new : string) : string :=
  match old with
  | EmptyString => new +:+ interleave new s
  | _ => replace_from old new 0 s
  end.

(** [s.find(sub)]: the lowest index where [sub] starts. *)
Fixpoint find (sub s : string) : option nat :=
  if starts_with sub s then Some 0
  else match s with
       | EmptyString => None
       | String _ r => S <$> find sub r
       end.

(** [s.rfind(sub)]: the highest index where [sub] starts. *)
Fixpoint rfind (sub s : string) : option nat :=
  match s with
  | EmptyString => if starts_with sub s then Some 0 else None
  | String _ r =>
      match rfind sub r with
      | Some i => Some (S i)
      | None => if starts_with sub s then Some 0 else None
      end
  end.

(** [s[a:b]] for indices that are not negative. *)
Definition slice (s : string) (a b : nat) : string := String.substring a (b - a) s.

(** [sep.join(parts)] *)
Fixpoint join (sep : string) (parts : list string) : string :=
  match parts with
  | [] => EmptyString
  | [x] => x
  | x :: rest => x +:+ sep +:+ join sep rest
  end.

(** [str(v)] *)
Definition str (v : Py.value) : string :=
  match v with
  | Py.VNone => "None"
  | Py.VBool true => "True"
  | Py.VBool false => "False"
  | Py.VInt z => pretty z
  | Py.VStr s => s
  end.

(** The characters of a string, and [sub in s]. *)
Definition chars (s : string) : list ascii := String.list_ascii_of_string s.

Definition occurs (sub s : string) : Prop :=
  exists pre post, s = pre +:+ sub +:+ post.

End PyStr.

(** ** driver/driver_interface.py *)

Module DriverInterface.

(** [class LocateBy] *)
Module LocateBy.
Definition ID := "id".
Definition CLASSNAME := "class name".
Definition XPATH := "xpath".
Definition CSS_SELECTOR := "css selector".
Definition TAG_NAME := "tag name".
Definition LINK_TEXT := "link text".
End LocateBy.

(** *** The hook registry *)

(** One hook definition of the hook file: a symbolic name with the locator
    kind and the locator value it stands for. *)
Record Hook := { name : string; kind : string; value : string }.

(** The JSON object stored under a name: its members. *)
Definition hook_object (h : Hook) : gmap string Py.value :=
  {[ "type" := Py.VStr (kind h); "value" := Py.VStr (value h) ]}.

(** [d.get(key)] on a dict with string keys: [None] when the key is absent
    (a key that is not a string is never present). *)
Definition dict_get {V} (d : gmap string V) (key : Py.value) : option V :=
  match key with
  | Py.VStr k => d !! k
  | _ => None
  end.

Definition member (d : gmap string Py.value) (key : string) : Py.value :=
  default Py.VNone (d !! key).

(** [class Hooks] *)
Module Hooks.

Record t := { hook_file : string; hooks : gmap string (gmap string Py.value) }.

(** Modelled from the spec: [utilities.json_helper.LoadJson.using_filepath]
    is not among the sources.  Section 6 describes the hook definitions file
    as key-value data associating a symbolic name with its type and value,
    and section 4.1 has [load] turn it into a mapping from names to hooks;
    a name defined twice keeps its last definition, as a JSON object read
    into a dict does. *)
Definition using_definitions (defs : list Hook) : gmap string (gmap string Py.value) :=
  foldl (fun m h => <[name h := hook_object h]> m) ∅ defs.

(** [Hooks.__init__], on the definitions found in the hook file. *)
Definition __init__ (CURRENT_DIR hook_file_name : string) (defs : list Hook) : t :=
  {| hook_file := CURRENT_DIR +:+ "\hooks\" +:+ hook_file_name +:+ ".json";
     hooks := using_definitions defs |}.

(** [Hooks.get_hook]: [hook] is [None] for an unknown name, and [None] has
    no method [get]. *)
Definition get_hook (self : t) (hook_name : Py.value) : Py.result (Py.value * Py.value) :=
  match dict_get (hooks self) hook_name with
  | None => Py.Raise (Py.AttributeError "'NoneType' object has no attribute 'get'")
  | Some hook =>
      let hook_type := member hook "type" in
      let hook_value := member hook "value" in
      Py.Ok (hook_type, hook_value)
  end.

Definition get_hook_type (self : t) (hook_name : Py.value) : Py.result Py.value :=
  match get_hook self hook_name with
  | Py.Ok p => Py.Ok p.1
  | Py.Raise e => Py.Raise e
  end.

Definition get_hook_value (self : t) (hook_name : Py.value) : Py.result Py.value :=
  match get_hook self hook_name with
  | Py.Ok p => Py.Ok p.2
  | Py.Raise e => Py.Raise e
  end.

End Hooks.

(** *** The driver and the file system *)

(** Calls that reach the browser engine, with their arguments.  Elements
    the engine hands out are numbered. *)
Inductive driver_call : Type :=
| wait_until_visibility_of_element_located (locate_by hook_value : Py.value)
| wait_until_invisibility_of_element (locate_by hook_value : Py.value)
| find_element (locate_by hook_value : Py.value)
| send_keys (element : nat) (input_text : Py.value)
| click (element : nat)
| move_to_element_perform (element : nat)
| text (element : nat)
| save_screenshot (path : string).

#[global] Instance driver_call_eq_dec : EqDecision driver_call.
Proof. solve_decision. Defined.

(** The world of a driver session: the calls the engine has received, and
    the file system as the entries of each directory.  A directory is known
    under its path without trailing separators; the working directory is
    ["."]. *)
Record browser := {
  received : list driver_call;
  fs : gmap string (gset string)
}.

Definition call_driver (c : driver_call) : Py.M browser unit :=
  Py.modify (fun b => {| received := received b ++ [c]; fs := fs b |}).

(** The path separator. *)
Definition sep : ascii := "/"%char.

(** [s.rstrip(sep)] *)
Fixpoint rstrip_sep (s : string) : string :=
  match s with
  | EmptyString => EmptyString
  | String c r =>
      match rstrip_sep r with
      | EmptyString => if bool_decide (c = sep) then EmptyString else String c EmptyString
      | r' => String c r'
      end
  end.

(** The path cut after its last separator: [(p[:i], p[i:])] for
    [i = p.rfind(sep) + 1]. *)
Fixpoint cut_last_sep (p : string) : string * string :=
  match p with
  | EmptyString => (EmptyString, EmptyString)
  | String c r =>
      match cut_last_sep r with
      | (EmptyString, tail) =>
          if bool_decide (c = sep) then (String c EmptyString, tail)
          else (EmptyString, String c tail)
      | (head, tail) => (String c head, tail)
      end
  end.

(** Trailing separators do not count, except in a path made of separators
    only (the root). *)
Definition strip_dir (d : string) : string :=
  match rstrip_sep d with
  | EmptyString => d
  | d' => d'
  end.

(** [os.path.split] *)
Definition os_path_split (p : string) : string * string :=
  let '(head, tail) := cut_last_sep p in (strip_dir head, tail).

(** The directory a path written by the process lands in. *)
Definition directory_of (head : string) : string :=
  match head with
  | EmptyString => "."
  | _ => head
  end.

(** [os.path.exists], for a directory named as the world knows it (its
    path as spelled, trailing separators apart). *)
Definition os_path_exists (directory : string) : Py.M browser bool :=
  fun b => (Py.Ok (bool_decide (is_Some (fs b !! strip_dir directory))), b).

(** [os.makedirs], for a path whose parent is there: the last level
    appears, empty, and is entered in its parent when the parent is
    known. *)
Definition os_makedirs (directory : string) : Py.M browser unit :=
  let d := strip_dir directory in
  let '(head, tail) := os_path_split d in
  Py.modify (fun b =>
    {| received := received b;
       fs := <[d := ∅]> (alter (fun es => es ∪ {[tail]}) (directory_of head) (fs b)) |}).

(** [os.listdir], for a directory named as the world knows it; any other
    path counts as missing. *)
Definition os_listdir (directory : string) : Py.M browser (list string) :=
  fun b =>
    match directory with
    | EmptyString => (Py.Raise (Py.FileNotFoundError directory), b)
    | _ =>
        match fs b !! strip_dir directory with
        | Some es => (Py.Ok (elements es), b)
        | None => (Py.Raise (Py.FileNotFoundError directory), b)
        end
    end.

(** [driver.save_screenshot(path)]: the engine is asked for the picture and
    the file [path] is written; the call answers [False] instead of raising
    when the file cannot be written. *)
Definition driver_save_screenshot (path : string) : Py.M browser bool :=
  (call_driver (save_screenshot path) ;;;
   fun b =>
     let '(head, tail) := os_path_split path in
     let d := directory_of head in
     match fs b !! d, tail with
     | None, _ | _, EmptyString => (Py.Ok false, b)
     | Some es, _ =>
         (Py.Ok true, {| received := received b; fs := <[d := es ∪ {[tail]}]> (fs b) |})
     end)%py.

(** *** The driver session *)

(** [class DriverActions], as far as the interaction methods read it:
    [hooks] is [False] ([None] here) when no hook file was named, and
    [screenshot_dir] is [driver_setup.screenshot_dir]. *)
Record DriverActions := {
  hooks : option Hooks.t;
  screenshot_dir : string
}.

(** The value of an omitted [locate_by] argument. *)
Definition locate_by_default : Py.value := Py.VBool false.

Definition lift {W A} (r : Py.result A) : Py.M W A := fun w => (r, w).

(** [DriverDecorators.check_locate_by]: the wrapper that replaces the
    decorated method. *)
Definition check_locate_by
    (driver_fn : DriverActions -> Py.value -> Py.value -> Py.M browser Py.value)
    (self : DriverActions) (hook_value locate_by : Py.value) : Py.M browser Py.value :=
  match hooks self with
  | Some registry =>                                   (* self.hooks is not False *)
      if Py.is_False locate_by then
        (locate_by <- lift (Hooks.get_hook_type registry hook_value) ;;
         hook_value <- lift (Hooks.get_hook_value registry hook_value) ;;
         driver_fn self hook_value locate_by)%py
      else Py.ret Py.VNone
  | None => Py.ret Py.VNone
  end.

(** [DriverActions._check_locate_by] *)
Definition _check_locate_by (self : DriverActions) (hook_value locate_by : Py.value)
  : Py.M browser (Py.value * Py.value) :=
  match hooks self with
  | Some registry =>
      if Py.is_False locate_by then
        (p <- lift (Hooks.get_hook registry hook_value) ;;
         let '(locate_by, hook_value) := p in
         Py.ret (locate_by, hook_value))%py
      else Py.ret (locate_by, hook_value)
  | None => Py.ret (locate_by, hook_value)
  end.

Section Engine.

(** The browser engine as oracles that see the calls received so far:
    whether a wait times out, which element a locator finds (or the error
    raised for it), and the text of an element. *)
Variable wait_outcome : list driver_call -> option Py.exn.
Variable located : list driver_call -> Py.value -> Py.value -> Py.result nat.
Variable text_of : list driver_call -> nat -> string.

Definition wait_until (c : driver_call) : Py.M browser unit :=
  (call_driver c ;;;
   b <- Py.get ;;
   match wait_outcome (received b) with
   | Some err => Py.raise err
   | None => Py.ret tt
   end)%py.

Definition driver_find_element (locate_by hook_value : Py.value) : Py.M browser nat :=
  (call_driver (find_element locate_by hook_value) ;;;
   b <- Py.get ;;
   lift (located (received b) locate_by hook_value))%py.

(** The decorated bodies. *)
Definition wait_for_element_visible_body (self : DriverActions)
    (hook_value locate_by : Py.value) : Py.M browser Py.value :=
  (wait_until (wait_until_visibility_of_element_located locate_by hook_value) ;;;
   Py.ret Py.VNone)%py.

Definition wait_until_element_invisible_body (self : DriverActions)
    (hook_value locate_by : Py.value) : Py.M browser Py.value :=
  (wait_until (wait_until_invisibility_of_element locate_by hook_value) ;;;
   Py.ret Py.VNone)%py.

Definition select_element_body (self : DriverActions)
    (hook_value locate_by : Py.value) : Py.M browser Py.value :=
  (element <- driver_find_element locate_by hook_value ;;
   call_driver (click element) ;;;
   Py.ret Py.VNone)%py.

Definition hover_over_element_body (self : DriverActions)
    (hook_value locate_by : Py.value) : Py.M browser Py.value :=
  (element <- driver_find_element locate_by hook_value ;;
   call_driver (move_to_element_perform element) ;;;
   Py.ret Py.VNone)%py.

Definition get_element_text_body (self : DriverActions)
    (hook_value locate_by : Py.value) : Py.M browser Py.value :=
  (element <- driver_find_element locate_by hook_value ;;
   call_driver (text element) ;;;
   b <- Py.get ;;
   Py.ret (Py.VStr (text_of (received b) element)))%py.

(** The methods as the class exposes them. *)
Definition wait_for_element_visible := check_locate_by wait_for_element_visible_body.
Definition wait_until_element_invisible := check_locate_by wait_until_element_invisible_body.
Definition select_element := check_locate_by select_element_body.
Definition hover_over_element := check_locate_by hover_over_element_body.
Definition get_element_text := check_locate_by get_element_text_body.

(** [DriverActions.fill_in_field] *)
Definition fill_in_field (self : DriverActions)
    (input_text hook_value locate_by : Py.value) : Py.M browser Py.value :=
  (p <- _check_locate_by self hook_value locate_by ;;
   let '(locate_by, hook_value) := p in
   element <- driver_find_element locate_by hook_value ;;
   call_driver (send_keys element input_text) ;;;
   Py.ret Py.VNone)%py.

End Engine.

(** [DriverActions.take_screenshot]; [directory] is [None] when omitted. *)
Definition take_screenshot (self : DriverActions)
    (directory : option string) (file_name : string) : Py.M browser Py.value :=
  (directory <-
     match directory with
     | None =>
         let directory := screenshot_dir self in
         present <- os_path_exists directory ;;
         (if present then Py.ret tt else os_makedirs directory) ;;;
         Py.ret directory
     | Some directory => Py.ret directory
     end ;;
   names <- os_listdir directory ;;
   let num_of_screenshots := length names in
   driver_save_screenshot
     (directory +:+ file_name +:+ "-" +:+ pretty num_of_screenshots +:+ ".png") ;;;
   Py.ret Py.VNone)%py.

(** *** Fixtures of the examples *)

(** The registry of the specification's scenario, a session that uses it
    and a session without hook file. *)
Definition login_hooks : Hooks.t :=
  Hooks.__init__ "C:\traverse\driver" "login"
    [ {| name := "login_button"; kind := "id"; value := "btn1" |} ].
Definition session_with_hooks : DriverActions :=
  {| hooks := Some login_hooks; screenshot_dir := "screenshots/" |}.
Definition session_without_hooks : DriverActions :=
  {| hooks := None; screenshot_dir := "screenshots/" |}.

(** An engine that finds element 0 for every locator whose kind is a
    string, and rejects any other kind. *)
Definition strict_located (_ : list driver_call) (locate_by _ : Py.value) : Py.result nat :=
  match locate_by with
  | Py.VStr _ => Py.Ok 0
  | _ => Py.Raise (Py.EngineError "invalid locator strategy")
  end.
Definition patient (_ : list driver_call) : option Py.exn := None.
Definition blank_text (_ : list driver_call) (_ : nat) : string := "".

(** A browser that has received nothing, next to a directory [shots] with
    three files in the working directory. *)
Definition studio : browser :=
  {| received := [];
     fs := {[ "." := {[ "shots" ]};
              "shots" := {[ "a.png"; "b.png"; "c.png" ]} ]} |}.


(** The same place when the name [shot-3.png] is already taken. *)
Definition studio_with_shot : browser :=
  {| received := [];
     fs := {[ "." := {[ "shots" ]};
              "shots" := {[ "a.png"; "b.png"; "shot-3.png" ]} ]} |}.

(** *** Capabilities and drivers *)

(** [class Browsers] *)
Module Browsers.
Definition CHROME := "chrome".
Definition CHROMIUM := "chromium".
Definition FIREFOX := "firefox".
Definition IE := "ie".
Definition EDGE := "edge".
Definition OPERA := "opera".
End Browsers.

(** A capability file as read: its entries, and the entries of the object
    under [chromeOptions] when the file has one. *)
Record capability_file := {
  entries : gmap string Py.value;
  chromeOptions : option (gmap string Py.value)
}.

(** The descriptor [load_capability] builds. *)
Record capabilities := {
  seleniumVersion : string;
  deviceName : Py.value;
  browserName : Py.value;
  platformVersion : Py.value;
  platformName : Py.value;
  rotatable : Py.value;
  deviceOrientation : Py.value;
  privateDevicesOnly : bool;
  phoneOnly : bool;
  tabletOnly : bool;
  chromeOptions_w3c : Py.value
}.

(** [d[key]] *)
Definition subscript {V} (d : gmap string V) (key : string) : Py.result V :=
  match d !! key with
  | Some v => Py.Ok v
  | None => Py.Raise (Py.KeyError key)
  end.

Definition and_then {A B} (r : Py.result A) (k : A -> Py.result B) : Py.result B :=
  match r with
  | Py.Ok a => k a
  | Py.Raise e => Py.Raise e
  end.

(** What reaches the outside while a driver is loaded. *)
Inductive manager : Type :=
| ChromeDriverManager
| ChromeDriverManager_CHROMIUM
| GeckoDriverManager
| IEDriverManager
| EdgeChromiumDriverManager
| OperaDriverManager.

Inductive webdriver : Type :=
| Chrome
| Firefox
| Ie
| Edge
| Opera.

Inductive launch : Type :=
| Install (m : manager)
| Start (w : webdriver) (executable : string).

(** [value == name] for a name that is a string. *)
Definition equals_str (v : Py.value) (name : string) : bool :=
  match v with
  | Py.VStr s => bool_decide (s = name)
  | _ => false
  end.

(** [class DriverHelper] *)
Module DriverHelper.

(** The three settings read from the driver configuration. *)
Record t := {
  driver_name : Py.value;
  capability_dir : string;
  screenshot_dir : string
}.

Definition capability_path (CURRENT_DIR : string) (self : t)
    (platform capability : Py.value) : string :=
  CURRENT_DIR +:+ "\" +:+ capability_dir self +:+ "\" +:+ PyStr.str platform
    +:+ "\" +:+ PyStr.str capability +:+ ".json".

(** [DriverHelper.load_capability]; [files] is what the capability files
    hold, by path, and [__version__] the version of the driver library. *)
Definition load_capability (CURRENT_DIR __version__ : string)
    (files : gmap string capability_file) (self : t)
    (platform capability : Py.value) : Py.result capabilities :=
  match files !! capability_path CURRENT_DIR self platform capability with
  | None => Py.Raise (Py.Exception_ "Capability Not Found!")
  | Some cap_file =>
      and_then (subscript (entries cap_file) "deviceName") (fun device_name =>
      and_then (subscript (entries cap_file) "browserName") (fun browser_name =>
      and_then (subscript (entries cap_file) "platformVersion") (fun platform_version =>
      and_then (subscript (entries cap_file) "platformName") (fun platform_name =>
      and_then (subscript (entries cap_file) "rotatable") (fun rotatable_ =>
      and_then (subscript (entries cap_file) "deviceOrientation") (fun device_orientation =>
      and_then (match chromeOptions cap_file with
                | Some options => Py.Ok options
                | None => Py.Raise (Py.KeyError "chromeOptions")
                end) (fun options =>
      and_then (subscript options "w3c") (fun w3c =>
      Py.Ok {| seleniumVersion := __version__;
               deviceName := device_name;
               browserName := browser_name;
               platformVersion := platform_version;
               platformName := platform_name;
               rotatable := rotatable_;
               deviceOrientation := device_orientation;
               privateDevicesOnly := false;
               phoneOnly := false;
               tabletOnly := false;
               chromeOptions_w3c := w3c |}))))))))
  end.

Section Launch.

(** The driver managers and the driver classes, as oracles: the path of
    the executable a manager installs, and the driver a class starts. *)
Variable install : manager -> Py.result string.
Variable start : webdriver -> string -> Py.result nat.

Definition manager_install (m : manager) : Py.M (list launch) string :=
  fun w => (install m, w ++ [Install m]).

Definition webdriver_start (d : webdriver) (executable : string) : Py.M (list launch) nat :=
  fun w => (start d executable, w ++ [Start d executable]).

Definition started (d : webdriver) (m : manager) : Py.M (list launch) nat :=
  (executable <- manager_install m ;;
   webdriver_start d executable)%py.

(** [DriverHelper.load_driver] *)
Definition load_driver (caps : capabilities) : Py.M (list launch) nat :=
  if equals_str (browserName caps) Browsers.CHROME then
    started Chrome ChromeDriverManager
  else if equals_str (browserName caps) Browsers.CHROMIUM then
    started Chrome ChromeDriverManager_CHROMIUM
  else if equals_str (browserName caps) Browsers.FIREFOX then
    started Firefox GeckoDriverManager
  else if equals_str (browserName caps) Browsers.IE then
    started Ie IEDriverManager
  else if equals_str (browserName caps) Browsers.EDGE then
    started Edge EdgeChromiumDriverManager
  else if equals_str (browserName caps) Browsers.OPERA then
    started Opera OperaDriverManager
  else
    Py.raise (Py.Exception_
      "Unable to identify browser to load driver, check your capability file contains the correct value for browser name.").

End Launch.

End DriverHelper.

(** What [DriverActions.__init__] leaves in the new object: the
    capabilities, the driver, and the part the interaction methods read. *)
Record constructed := {
  caps : capabilities;
  driver : nat;
  actions : DriverActions
}.

Section Construction.

Variable CURRENT_DIR __version__ : string.
Variable driver_setup : DriverHelper.t.
Variable files : gmap string capability_file.
Variable hook_files : string -> Py.result (list Hook).
Variable install : manager -> Py.result string.
Variable start : webdriver -> string -> Py.result nat.

(** [DriverActions.__init__]; [hook_file_name] is [False] when omitted.
    [driver_setup] is the [DriverHelper()] of the first line, and
    [hook_files] what the hook file of a name holds. *)
Definition new_DriverActions (platform capability hook_file_name : Py.value)
  : Py.M (list launch) constructed :=
  (caps <- lift (DriverHelper.load_capability CURRENT_DIR __version__ files
                   driver_setup platform capability) ;;
   driver <- DriverHelper.load_driver install start caps ;;
   hooks <- (if Py.is_False hook_file_name then Py.ret None
             else
               defs <- lift (hook_files (PyStr.str hook_file_name)) ;;
               Py.ret (Some (Hooks.__init__ CURRENT_DIR (PyStr.str hook_file_name) defs))) ;;
   Py.ret {| caps := caps;
             driver := driver;
             actions := {| hooks := hooks;
                           screenshot_dir := DriverHelper.screenshot_dir driver_setup |} |})%py.

End Construction.

(** The names [load_driver] knows. *)
Definition supported_browsers : list string :=
  [Browsers.CHROME; Browsers.CHROMIUM; Browsers.FIREFOX; Browsers.IE;
   Browsers.EDGE; Browsers.OPERA].

(** A browser name that is none of them. *)
Definition unsupported (v : Py.value) : Prop :=
  forall name, name ∈ supported_browsers -> v <> Py.VStr name.

(** The entries [load_capability] reads from the file itself. *)
Definition required_entries : list string :=
  ["deviceName"; "browserName"; "platformVersion"; "platformName"; "rotatable";
   "deviceOrientation"].

(** A configuration, a capability file for Firefox on a desktop and one
    that names the browser with a capital letter, and managers and driver
    classes that always work. *)
Definition helper : DriverHelper.t :=
  {| DriverHelper.driver_name := Py.VStr "selenium";
     DriverHelper.capability_dir := "capabilities";
     DriverHelper.screenshot_dir := "screenshots/" |}.
Definition desktop_entries (browser : string) : gmap string Py.value :=
  {[ "deviceName" := Py.VStr "desktop"; "browserName" := Py.VStr browser;
     "platformVersion" := Py.VStr "10"; "platformName" := Py.VStr "windows";
     "rotatable" := Py.VBool false; "deviceOrientation" := Py.VStr "landscape" ]}.
Definition desktop (browser : string) : capability_file :=
  {| entries := desktop_entries browser;
     chromeOptions := Some {[ "w3c" := Py.VBool true ]} |}.
Definition capability_store : gmap string capability_file :=
  {[ "C:\traverse\driver\capabilities\windows\firefox.json" := desktop "firefox";
     "C:\traverse\driver\capabilities\windows\Chrome.json" := desktop "Chrome" ]}.
Definition installs (_ : manager) : Py.result string := Py.Ok "driver.exe".
Definition starts (_ : webdriver) (_ : string) : Py.result nat := Py.Ok 1.
Definition no_hook_files (_ : string) : Py.result (list Hook) :=
  Py.Raise (Py.FileNotFoundError "hooks").

End DriverInterface.

(** [class DatabaseOps] of utilities/database.py *)

Module DatabaseOps.

(** [replace_script_tokens]: the keyword arguments in the order they were
    given, each a token and the text that replaces it. *)
Definition replace_script_tokens (db_script : string)
    (tokens_n_values : list (string * string)) : string :=
  foldl (fun db_script kv => PyStr.replace db_script kv.1 kv.2) db_script tokens_n_values.

End DatabaseOps.

(** ** utilities/string_helper.py *)

Module StringHelper.

(** What a helper gives back: a value, or the ValueError of [index] and
    [rindex]. *)
Inductive outcome (A : Type) : Type :=
| Returns (a : A)
| ValueError (msg : string).
Arguments Returns {A} a.
Arguments ValueError {A} msg.

(** [s.index(sub)] and [s.rindex(sub)] *)
Definition index (s sub : string) : outcome nat :=
  match PyStr.find sub s with
  | Some i => Returns i
  | None => ValueError "substring not found"
  end.

Definition rindex (s sub : string) : outcome nat :=
  match PyStr.rfind sub s with
  | Some i => Returns i
  | None => ValueError "substring not found"
  end.

(** [StringHelper.replace_email_domain] *)
Definition replace_email_domain (email domain : string) : outcome string :=
  match index email "@" with
  | ValueError msg => ValueError msg
  | Returns pos_a =>
      match rindex email "." with
      | ValueError msg => ValueError msg
      | Returns pos_dot =>
          Returns (PyStr.replace email (PyStr.slice email pos_a pos_dot) domain)
      end
  end.

(** The first argument of [convert_to_csv]: a list, or an object of
    another type. *)
Inductive object : Type :=
| List (list_items : list Py.value)
| Other (v : Py.value).

Section Repr.

(** [repr] of a string (its quoted form) is Python's own; [repr] of the
    other values is their [str]. *)
Variable repr_str : string -> string.

Definition repr (v : Py.value) : string :=
  match v with
  | Py.VStr s => repr_str s
  | _ => PyStr.str v
  end.

(** [str(list_items)] for a list *)
Definition str_list (list_items : list Py.value) : string :=
  "[" +:+ PyStr.join ", " (map repr list_items) +:+ "]".

(** [StringHelper.convert_to_csv]; the result is [None] when the first
    argument is not a list. *)
Definition convert_to_csv (list_items : object)
    (add_single_quotes : Py.value) (seperator : Py.value) : option string :=
  match list_items with
  | List list_items =>
      let csv := PyStr.join (PyStr.str seperator) (map PyStr.str list_items) in
      let csv :=
        match add_single_quotes with
        | Py.VBool true =>
            let csv := str_list list_items in
            PyStr.replace (PyStr.replace csv "[" "") "]" ""
        | _ => csv
        end in
      Some csv
  | Other _ => None
  end.

End Repr.

(** [StringHelper.add_chars_to_list_items_start_end] *)
Definition add_chars_to_list_items_start_end
    (list_items : list Py.value) (start_char end_char : Py.value) : list string :=
  map (fun i => PyStr.str start_char +:+ PyStr.str i +:+ PyStr.str end_char) list_items.

End StringHelper.

(** * Properties *)

(** ** Test records *)

Section TestRecords.
Import CoreDetails.

Lemma construct_ids n itr :
  ids (construct n itr).1 = seq (upcoming itr) n.
Proof.
  revert itr. induction n as [|n IH]; intros itr; [done|].
  cbn. specialize (IH {| upcoming := S (upcoming itr) |}).
  destruct (construct n _) as [ts itr'']. cbn in *. by rewrite IH.
Qed.

Lemma construct_length n itr : length (construct n itr).1 = n.
Proof.
  rewrite <- (length_map test_id). fold (ids (construct n itr).1).
  by rewrite construct_ids, length_seq.
Qed.

Lemma construct_counter n itr :
  upcoming (construct n itr).2 = upcoming itr + n.
Proof.
  revert itr. induction n as [|n IH]; intros itr; cbn; [lia|].
  specialize (IH {| upcoming := S (upcoming itr) |}).
  destruct (construct n _) as [ts itr'']. cbn in *. lia.
Qed.

Lemma seq_strictly_increasing a n : StronglySorted lt (seq a n).
Proof.
  revert a. induction n as [|n IH]; intros a; cbn; constructor; [apply IH|].
  apply Forall_forall. intros x Hx. apply list_elem_of_In, in_seq in Hx. lia.
Qed.

(** A record built later has a larger id than any record built before it,
    also across two batches of constructions. *)
Lemma later_batch_has_larger_ids n m itr x y :
  x ∈ ids (construct n itr).1 ->
  y ∈ ids (construct m (construct n itr).2).1 ->
  x < y.
Proof.
  rewrite !construct_ids, construct_counter.
  intros Hx%list_elem_of_In%in_seq Hy%list_elem_of_In%in_seq. lia.
Qed.

Example first_three_ids : ids (construct 3 itertools_count).1 = [0; 1; 2].
Proof. reflexivity. Qed.

(** C6: however many test records are constructed one after the other, from
    any state of the process-wide counter, all [n] constructions succeed,
    their ids are strictly increasing in construction order, and no id
    occurs twice. *)
Theorem test_ids_strictly_increasing_nodup (n : nat) (itr : count) :
  length (construct n itr).1 = n /\
  StronglySorted lt (ids (construct n itr).1) /\
  NoDup (ids (construct n itr).1).
Proof.
  rewrite construct_ids, construct_length. split_and!; [done| |apply NoDup_seq].
  apply seq_strictly_increasing.
Qed.

End TestRecords.

(** ** The connection retry policy *)

Section RetryPolicy.
Import Database.

Context {handle : Type}.
Implicit Types (body : Py.M world handle) (w : world).

Lemma retry_loop_step body attempt w :
  retry_loop body attempt w =
  if decide (attempt <= retry_limit) then
    match body w with
    | (Py.Ok conn, w1) => (Py.Ok conn, w1)
    | (Py.Raise err, w1) => retry_loop body (attempt + 1) (after_failure err w1)
    end
  else (Py.Raise ConnectionExhaustedError, w).
Proof.
  simp retry_loop. destruct (decide (attempt <= retry_limit)) as [Hle|Hgt]; simpl; [|done].
  destruct (body w) as [[conn|err] [a evs]]; simpl; [done|].
  unfold after_failure. simpl. by rewrite <- app_assoc.
Qed.

Lemma mysql_try_is_attempt tunnel connect info use_ssh :
  is_attempt (mysql_try (handle:=handle) tunnel connect info use_ssh).
Proof.
  intros w. unfold mysql_try, Py.bind, begin_attempt, through_tunnel, direct, Py.raise.
  repeat case_match; simplify_eq/=; done.
Qed.

Lemma postgre_try_is_attempt tunnel connect info use_ssh :
  is_attempt (postgre_try (handle:=handle) tunnel connect info use_ssh).
Proof.
  intros w. unfold postgre_try, Py.bind, begin_attempt, through_tunnel, direct, Py.raise.
  repeat case_match; simplify_eq/=; done.
Qed.

(** [n] failures in a row take the loop [n] rounds further. *)
Lemma retry_loop_failures body (Hbody : is_attempt body) n :
  forall attempt w,
    attempt + n <= S retry_limit ->
    (forall w', attempts w <= attempts w' < attempts w + n ->
                exists err, (body w').1 = Py.Raise err) ->
    exists errs,
      length errs = n /\
      retry_loop body attempt w =
      retry_loop body (attempt + n)
        {| attempts := attempts w + n; log := log w ++ rounds (attempts w) errs |}.
Proof.
  induction n as [|n IH]; intros attempt w Hle Hfail.
  - exists []. split; [done|]. simpl. rewrite !Nat.add_0_r, app_nil_r. by destruct w.
  - destruct (Hfail w) as [err Herr]; [lia|].
    pose proof (Hbody w) as Hw. destruct (body w) as [r w1] eqn:Hbw. simpl in *. subst.
    destruct (IH (attempt + 1)
                (after_failure err
                   {| attempts := S (attempts w); log := log w ++ [Attempt (attempts w)] |}))
      as (errs & Hlen & Hloop); [lia|simpl; intros w' ?; apply Hfail; lia|].
    exists (err :: errs). split; [simpl; lia|].
    rewrite retry_loop_step, Hbw. rewrite decide_True by lia.
    rewrite Hloop. simpl. f_equal; [lia|]. f_equal; [lia|].
    rewrite <- !app_assoc. done.
Qed.

Lemma try_body_is_attempt c tunnel connect info use_ssh :
  is_attempt (try_body (handle:=handle) c tunnel connect info use_ssh).
Proof. destruct c; [apply mysql_try_is_attempt|apply postgre_try_is_attempt]. Qed.

Lemma connect_to_db_loop c tunnel connect info use_ssh w :
  connect_to_db (handle:=handle) c tunnel connect info use_ssh w =
  retry_loop (try_body c tunnel connect info use_ssh) 0 w.
Proof. by destruct c. Qed.

(** C2: when every connection attempt fails, [connect_to_db] (of [MySql]
    and of [PostGre]) makes exactly four attempts, each one followed by the
    warning and a sleep of 2, and then gives up with the exception the
    specification calls ConnectionExhaustedError. *)
Theorem connect_gives_up_after_four_attempts
    (c : client) tunnel connect (info : DatabaseConnInfo) (use_ssh : Z) w :
  (forall w', exists err,
      (try_body (handle:=handle) c tunnel connect info use_ssh w').1 = Py.Raise err) ->
  exists e1 e2 e3 e4,
    connect_to_db c tunnel connect info use_ssh w =
    (Py.Raise ConnectionExhaustedError,
     {| attempts := attempts w + 4;
        log := log w ++
               [Attempt (attempts w); Warn e1; Sleep 2;
                Attempt (attempts w + 1); Warn e2; Sleep 2;
                Attempt (attempts w + 2); Warn e3; Sleep 2;
                Attempt (attempts w + 3); Warn e4; Sleep 2] |}).
Proof.
  intros Hfail. rewrite connect_to_db_loop.
  destruct (retry_loop_failures _ (try_body_is_attempt c tunnel connect info use_ssh)
              4 0 w) as (errs & Hlen & Hloop); [done|intros; apply Hfail|].
  destruct errs as [|e1 [|e2 [|e3 [|e4 [|]]]]]; simplify_eq/=.
  exists e1, e2, e3, e4. rewrite Hloop, retry_loop_step. simpl.
  repeat f_equal; lia.
Qed.

(** What a try meets on each path: a direct try is the client's answer;
    a try through the tunnel needs the key, then the tunnel, then the
    client. *)
Lemma try_body_direct
    (c : client) tunnel connect (info : DatabaseConnInfo) (use_ssh : Z) w :
  ~ ((c = MySqlClient /\ use_ssh = 1%Z) \/ (c = PostGreClient /\ use_ssh <> 0%Z)) ->
  (try_body (handle:=handle) c tunnel connect info use_ssh w).1 =
  connect info (attempts w).
Proof.
  intros Hdirect. destruct c; simpl;
    unfold mysql_try, postgre_try, Py.bind, begin_attempt, direct; simpl.
  - destruct (Z.eqb_spec use_ssh 1) as [->|Hne]; [|done]. destruct Hdirect. by left.
  - destruct (Z.eqb_spec use_ssh 0) as [->|Hne]; [done|]. destruct Hdirect. by right.
Qed.

Lemma try_body_tunnelled
    (c : client) tunnel connect (info : DatabaseConnInfo) (use_ssh : Z) w :
  (c = MySqlClient /\ use_ssh = 1%Z) \/ (c = PostGreClient /\ use_ssh <> 0%Z) ->
  (try_body (handle:=handle) c tunnel connect info use_ssh w).1 =
  match ssh_key info with
  | None => Py.Raise (Py.AttributeError
                        "'DatabaseConnInfo' object has no attribute 'ssh_key'")
  | Some _ =>
      match tunnel info (attempts w) with
      | Some err => Py.Raise err
      | None => connect info (attempts w)
      end
  end.
Proof.
  intros [[-> ->]|[-> Hne]]; simpl;
    unfold mysql_try, postgre_try, Py.bind, begin_attempt, through_tunnel, Py.raise; simpl.
  - destruct (ssh_key info); [|done]. by destruct (tunnel info (attempts w)).
  - rewrite (proj2 (Z.eqb_neq _ _) Hne).
    destruct (ssh_key info); [|done]. by destruct (tunnel info (attempts w)).
Qed.

Lemma tunnel_or_direct (c : client) (use_ssh : Z) :
  ((c = MySqlClient /\ use_ssh = 1%Z) \/ (c = PostGreClient /\ use_ssh <> 0%Z)) \/
  ~ ((c = MySqlClient /\ use_ssh = 1%Z) \/ (c = PostGreClient /\ use_ssh <> 0%Z)).
Proof.
  destruct c.
  - destruct (decide (use_ssh = 1%Z)) as [->|Hne].
    + left. by left.
    + right. intros [[_ Heq]|[Hc _]]; [done|discriminate Hc].
  - destruct (decide (use_ssh = 0%Z)) as [->|Hne].
    + right. intros [[Hc _]|[_ Hne]]; [discriminate Hc|done].
    + left. by right.
Qed.

(** The loop on any [try] body that is an attempt: [k - 1] failures and
    then a success. *)
Lemma retry_loop_returns_on_kth body (Hbody : is_attempt body) w (k : nat) (conn : handle) :
  1 <= k <= 4 ->
  (forall w', attempts w <= attempts w' < attempts w + (k - 1) ->
     exists err, (body w').1 = Py.Raise err) ->
  (forall w', attempts w' = attempts w + (k - 1) -> (body w').1 = Py.Ok conn) ->
  exists errs w',
    length errs = k - 1 /\
    retry_loop body 0 w = (Py.Ok conn, w') /\
    attempts w' = attempts w + k /\
    log w' = log w ++ rounds (attempts w) errs ++ [Attempt (attempts w + (k - 1))] /\
    last (log w') = Some (Attempt (attempts w + (k - 1))).
Proof.
  intros Hk Hfail Hok.
  destruct (retry_loop_failures _ Hbody (k - 1) 0 w)
    as (errs & Hlen & Hloop); [unfold retry_limit; lia|done|].
  set (wk := {| attempts := attempts w + (k - 1);
                log := log w ++ rounds (attempts w) errs |}) in *.
  exists errs, {| attempts := S (attempts wk); log := log wk ++ [Attempt (attempts wk)] |}.
  split; [done|]. rewrite Hloop, retry_loop_step.
  rewrite decide_True by (unfold retry_limit; lia).
  specialize (Hok wk eq_refl). specialize (Hbody wk).
  destruct (body wk) as [r w1]. simpl in Hok, Hbody.
  subst r w1. simpl. split_and!; [done|lia|by rewrite <- app_assoc|].
  by rewrite last_snoc.
Qed.

(** C4: a target that fails on the first [k - 1] attempts and succeeds on
    the [k]-th, for [k] from 1 to 4.  An attempt fails when the client
    library's connect raises, or, on the path through the tunnel
    ([use_ssh == 1] for [MySql], [use_ssh != 0] for [PostGre]), when the
    tunnel does not open; the [k]-th succeeds when connect returns the
    handle and, on the tunnel path, the key is there and the tunnel opens.
    Then [connect_to_db] returns that handle; exactly [k] attempts were
    made, each failed one followed by a sleep, and the successful attempt
    is the last event: nothing is slept after it. *)
Theorem connect_returns_on_kth_attempt
    (c : client) tunnel connect (info : DatabaseConnInfo) (use_ssh : Z) w
    (k : nat) (conn : handle) :
  1 <= k <= 4 ->
  (forall i, attempts w <= i < attempts w + (k - 1) ->
     (((c = MySqlClient /\ use_ssh = 1%Z) \/ (c = PostGreClient /\ use_ssh <> 0%Z)) /\
      exists err, tunnel info i = Some err) \/
     (exists err, connect info i = Py.Raise err)) ->
  ((c = MySqlClient /\ use_ssh = 1%Z) \/ (c = PostGreClient /\ use_ssh <> 0%Z) ->
   is_Some (ssh_key info) /\ tunnel info (attempts w + (k - 1)) = None) ->
  connect info (attempts w + (k - 1)) = Py.Ok conn ->
  exists errs w',
    length errs = k - 1 /\
    connect_to_db c tunnel connect info use_ssh w = (Py.Ok conn, w') /\
    attempts w' = attempts w + k /\
    log w' = log w ++ rounds (attempts w) errs ++ [Attempt (attempts w + (k - 1))] /\
    last (log w') = Some (Attempt (attempts w + (k - 1))).
Proof.
  intros Hk Hfail Hopen Hok. rewrite connect_to_db_loop.
  apply retry_loop_returns_on_kth; [apply try_body_is_attempt|done|..].
  - intros w' Hw'.
    destruct (tunnel_or_direct c use_ssh) as [Hssh|Hdirect].
    + rewrite try_body_tunnelled by done.
      destruct (ssh_key info); [|by eexists].
      destruct (tunnel info (attempts w')) as [err|] eqn:Htunnel; [by eexists|].
      destruct (Hfail (attempts w') Hw') as [[_ [err Herr]]|[err Herr]].
      * by rewrite Htunnel in Herr.
      * by exists err.
    + rewrite try_body_direct by done.
      destruct (Hfail (attempts w') Hw') as [[Hssh _]|[err Herr]]; [done|by exists err].
  - intros w' Hw'.
    destruct (tunnel_or_direct c use_ssh) as [Hssh|Hdirect].
    + rewrite try_body_tunnelled by done.
      destruct (Hopen Hssh) as [[key Hkey] Htunnel].
      rewrite Hkey, Hw', Htunnel. done.
    + rewrite try_body_direct by done. by rewrite Hw'.
Qed.

End RetryPolicy.

Section RetryPolicyExamples.
Import Database.

Lemma connect_gives_up_after_four_attempts_witness :
  exists e1 e2 e3 e4,
    connect_to_db MySqlClient no_tunnel refusing localhost 0 fresh =
    (Py.Raise ConnectionExhaustedError,
     {| attempts := 4;
        log := [Attempt 0; Warn e1; Sleep 2; Attempt 1; Warn e2; Sleep 2;
                Attempt 2; Warn e3; Sleep 2; Attempt 3; Warn e4; Sleep 2] |}).
Proof.
  apply (connect_gives_up_after_four_attempts MySqlClient no_tunnel refusing localhost 0 fresh).
  intros w'. exists (Py.EngineError "connection refused"). reflexivity.
Defined.

Lemma connect_returns_on_kth_attempt_witness :
  exists errs w',
    length errs = 1 /\
    connect_to_db MySqlClient no_tunnel accepting_second keyed 1 fresh = (Py.Ok 7, w') /\
    attempts w' = 2 /\
    log w' = rounds 0 errs ++ [Attempt 1] /\
    last (log w') = Some (Attempt 1).
Proof.
  apply (connect_returns_on_kth_attempt
           MySqlClient no_tunnel accepting_second keyed 1 fresh 2 7).
  - simpl. lia.
  - intros i Hi. simpl in Hi. assert (i = 0) as -> by lia.
    right. exists (Py.EngineError "connection refused"). reflexivity.
  - intros _. split; [eexists; reflexivity|reflexivity].
  - reflexivity.
Defined.

End RetryPolicyExamples.

(** ** Queries that return rows *)

Section Queries.
Import Database.

Context {handle : Type}.
Variable run : handle -> string -> Py.result (list row).

(** The list [fetchall] built is never the list the display [[]] builds
    after it. *)
Lemma fetched_is_not_fresh_display (conn : handle) (script : string) s rows :
  run conn script = Py.Ok rows ->
  ((cursor_execute run conn script ;;;
    raw_results <- cursor_fetchall conn ;;
    empty <- new_list [] ;;
    Py.ret (is_ raw_results empty))%py s).1 = Py.Ok false.
Proof.
  intros Hrun. unfold cursor_execute, cursor_fetchall, Py.bind, record_call, Py.modify,
    Py.get, new_list, Py.ret, is_. rewrite Hrun. simpl.
  rewrite bool_decide_eq_false_2; [done|lia].
Qed.

Lemma query_results_are_returned (c : client) (conn : handle) (script : string) s rows :
  run conn script = Py.Ok rows ->
  exists s',
    execute_query_return_results c run conn script s =
    (Py.Ok {| ident := next_ident s; items := rows |}, s').
Proof.
  intros Hrun. destruct c; simpl;
    unfold MySql.execute_query_return_results, PostGre.execute_query_return_results,
      mysql_query_results, postgre_query_results, conn_cursor, cursor_execute,
      cursor_fetchall, conn_close, Py.bind, record_call, Py.modify, Py.get, new_list,
      Py.ret, is_; rewrite Hrun; simpl;
    (rewrite bool_decide_eq_false_2 by lia); simpl; eauto.
Qed.

(** C3 (at the input where the code departs from it): a query that
    produces zero rows does not make [execute_query_return_results] raise
    DatabaseReturnedNothingError; the call returns the empty list, for
    [MySql] and for [PostGre] alike. *)
Theorem zero_rows_are_returned_not_raised
    (c : client) (conn : handle) (script : string) s :
  run conn script = Py.Ok [] ->
  exists l s',
    execute_query_return_results c run conn script s = (Py.Ok l, s') /\
    items l = [] /\
    (execute_query_return_results c run conn script s).1
      <> Py.Raise Py.DatabaseReturnedNothingError.
Proof.
  intros Hrun. destruct (query_results_are_returned c conn script s [] Hrun) as [s' Hs'].
  eexists _, s'. rewrite Hs'. done.
Qed.

End Queries.

Section QueriesExamples.
Import Database.

Lemma zero_rows_are_returned_not_raised_witness :
  no_rows 1 "SELECT id FROM users WHERE 1 = 0" = Py.Ok [] /\
  exists l s',
    execute_query_return_results MySqlClient no_rows 1
      "SELECT id FROM users WHERE 1 = 0" idle = (Py.Ok l, s') /\
    items l = [] /\
    (execute_query_return_results MySqlClient no_rows 1
       "SELECT id FROM users WHERE 1 = 0" idle).1
      <> Py.Raise Py.DatabaseReturnedNothingError.
Proof.
  split; [reflexivity|].
  apply (zero_rows_are_returned_not_raised no_rows MySqlClient 1
           "SELECT id FROM users WHERE 1 = 0" idle).
  reflexivity.
Defined.

End QueriesExamples.

(** ** The hook registry *)

Section HookRegistry.
Import DriverInterface.

Lemma using_definitions_snoc defs h :
  Hooks.using_definitions (defs ++ [h]) =
  <[name h := hook_object h]> (Hooks.using_definitions defs).
Proof. unfold Hooks.using_definitions. by rewrite foldl_app. Qed.

(** The registry holds, under a name, the last definition of that name. *)
Lemma lookup_using_definitions defs nm :
  Hooks.using_definitions defs !! nm =
  hook_object <$> last (filter (fun h => name h = nm) defs).
Proof.
  induction defs as [|h defs IH] using rev_ind; [done|].
  rewrite using_definitions_snoc, filter_app, filter_cons, filter_nil.
  destruct (decide (name h = nm)) as [->|Hne].
  - by rewrite lookup_insert_eq, last_snoc.
  - rewrite lookup_insert_ne by done. by rewrite app_nil_r.
Qed.

(** On any registry: a present name gives the two members of its object. *)
Lemma get_hook_present (self : Hooks.t) nm hook :
  Hooks.hooks self !! nm = Some hook ->
  Hooks.get_hook self (Py.VStr nm) = Py.Ok (member hook "type", member hook "value").
Proof. intros Hnm. unfold Hooks.get_hook. simpl. by rewrite Hnm. Qed.

Lemma get_hook_absent (self : Hooks.t) hook_name :
  dict_get (Hooks.hooks self) hook_name = None ->
  Hooks.get_hook self hook_name =
  Py.Raise (Py.AttributeError "'NoneType' object has no attribute 'get'").
Proof. intros Hnm. unfold Hooks.get_hook. by rewrite Hnm. Qed.

(** C5: in a registry loaded from any list of hook definitions, every name
    present in the registry is the name of a definition of the list, the
    registry stores that definition under it (the last one of that name),
    and [get_hook] returns exactly its kind and value. *)
Theorem lookup_returns_stored_pair (dir file : string) (defs : list Hook) (nm : string) :
  is_Some (Hooks.hooks (Hooks.__init__ dir file defs) !! nm) ->
  exists h,
    h ∈ defs /\ name h = nm /\
    last (filter (fun h => name h = nm) defs) = Some h /\
    Hooks.hooks (Hooks.__init__ dir file defs) !! nm = Some (hook_object h) /\
    Hooks.get_hook (Hooks.__init__ dir file defs) (Py.VStr nm) =
      Py.Ok (Py.VStr (kind h), Py.VStr (value h)).
Proof.
  simpl. rewrite lookup_using_definitions. intros [hook Hhook].
  destruct (last (filter (fun h => name h = nm) defs)) as [h|] eqn:Hlast; [|done].
  exists h. assert (h ∈ filter (fun h => name h = nm) defs) as Hin.
  { apply last_Some in Hlast as [l' ->]. set_solver. }
  apply list_elem_of_filter in Hin as [Hname Hdefs].
  split_and!; [done..|].
  rewrite (get_hook_present _ nm (hook_object h)).
  - unfold member, hook_object. rewrite lookup_insert_eq.
    rewrite lookup_insert_ne by done. by rewrite lookup_singleton_eq.
  - simpl. by rewrite lookup_using_definitions, Hlast.
Qed.

(** C9, as the code has it: a name absent from the registry makes
    [get_hook] fail, with the AttributeError raised for [None.get]; it is
    not a KeyError. *)
Theorem lookup_of_absent_name_raises_attribute_error (self : Hooks.t) (nm : string) :
  Hooks.hooks self !! nm = None ->
  Hooks.get_hook self (Py.VStr nm) =
  Py.Raise (Py.AttributeError "'NoneType' object has no attribute 'get'").
Proof. intros Hnm. by apply get_hook_absent. Qed.

End HookRegistry.

Section HookRegistryExamples.
Import DriverInterface.

Example scenario_lookup :
  Hooks.get_hook login_hooks (Py.VStr "login_button") = Py.Ok (Py.VStr "id", Py.VStr "btn1").
Proof. reflexivity. Qed.

Lemma lookup_returns_stored_pair_witness :
  exists h,
    h ∈ [ {| name := "login_button"; kind := "id"; value := "btn1" |} ] /\
    name h = "login_button" /\
    last (filter (fun h => name h = "login_button")
            [ {| name := "login_button"; kind := "id"; value := "btn1" |} ]) = Some h /\
    Hooks.hooks login_hooks !! "login_button" = Some (hook_object h) /\
    Hooks.get_hook login_hooks (Py.VStr "login_button") =
      Py.Ok (Py.VStr (kind h), Py.VStr (value h)).
Proof.
  apply (lookup_returns_stored_pair "C:\traverse\driver" "login"
           [ {| name := "login_button"; kind := "id"; value := "btn1" |} ] "login_button").
  vm_compute. eexists. reflexivity.
Defined.

Lemma lookup_of_absent_name_raises_attribute_error_witness :
  Hooks.get_hook login_hooks (Py.VStr "logout_button") =
  Py.Raise (Py.AttributeError "'NoneType' object has no attribute 'get'").
Proof.
  apply (lookup_of_absent_name_raises_attribute_error login_hooks "logout_button").
  vm_compute. reflexivity.
Defined.

(** The claim of a KeyError fails on the scenario's registry. *)
Lemma lookup_of_absent_name_is_not_a_key_error :
  Hooks.hooks login_hooks !! "logout_button" = None /\
  ~ exists key, Hooks.get_hook login_hooks (Py.VStr "logout_button")
                = Py.Raise (Py.KeyError key).
Proof.
  split; [vm_compute; reflexivity|]. intros [key Hkey]. vm_compute in Hkey. discriminate Hkey.
Qed.

End HookRegistryExamples.

(** ** Locator resolution *)

Section LocatorResolution.
Import DriverInterface.

Variable wait_outcome : list driver_call -> option Py.exn.
Variable located : list driver_call -> Py.value -> Py.value -> Py.result nat.
Variable text_of : list driver_call -> nat -> string.

Implicit Types (self : DriverActions) (b : browser).
Implicit Types (driver_fn : DriverActions -> Py.value -> Py.value -> Py.M browser Py.value).

(** Without a registry the wrapper returns [None] at once, whatever the
    arguments are. *)
Lemma check_locate_by_without_registry driver_fn self hook_value locate_by b :
  hooks self = None ->
  check_locate_by driver_fn self hook_value locate_by b = (Py.Ok Py.VNone, b).
Proof. intros Hnone. unfold check_locate_by. by rewrite Hnone. Qed.

(** With a registry and an explicit kind the wrapper returns [None] at
    once as well: the wrapped method is only reached from the branch that
    looks the hook up. *)
Lemma check_locate_by_explicit_kind driver_fn self registry hook_value locate_by b :
  hooks self = Some registry ->
  Py.is_False locate_by = false ->
  check_locate_by driver_fn self hook_value locate_by b = (Py.Ok Py.VNone, b).
Proof. intros Hsome Hkind. unfold check_locate_by. by rewrite Hsome, Hkind. Qed.

(** With a registry and no kind, the wrapped method runs on the pair that
    the registry stores. *)
Lemma check_locate_by_named driver_fn self registry nm hook b :
  hooks self = Some registry ->
  Hooks.hooks registry !! nm = Some hook ->
  check_locate_by driver_fn self (Py.VStr nm) locate_by_default b =
  driver_fn self (member hook "value") (member hook "type") b.
Proof.
  intros Hsome Hnm. unfold check_locate_by, Hooks.get_hook_type, Hooks.get_hook_value.
  rewrite Hsome. simpl. by rewrite (get_hook_present _ _ _ Hnm).
Qed.

(** [_check_locate_by] hands an explicit kind through without reading the
    registry, whether there is one or not. *)
Lemma _check_locate_by_explicit_kind self hook_value locate_by b :
  Py.is_False locate_by = false ->
  _check_locate_by self hook_value locate_by b = (Py.Ok (locate_by, hook_value), b).
Proof. intros Hkind. unfold _check_locate_by. destruct (hooks self); by rewrite ?Hkind. Qed.

Lemma _check_locate_by_without_registry self hook_value locate_by b :
  hooks self = None ->
  _check_locate_by self hook_value locate_by b = (Py.Ok (locate_by, hook_value), b).
Proof. intros Hnone. unfold _check_locate_by. by rewrite Hnone. Qed.

(** What [fill_in_field] does once resolution has produced a pair. *)
Lemma fill_in_field_calls_find_element self input_text hook_value locate_by b :
  _check_locate_by self hook_value locate_by b = (Py.Ok (locate_by, hook_value), b) ->
  exists rest,
    received (fill_in_field located self input_text hook_value locate_by b).2 =
    received b ++ find_element locate_by hook_value :: rest.
Proof.
  intros Hres. unfold fill_in_field, Py.bind. rewrite Hres.
  unfold driver_find_element, call_driver, Py.bind, Py.modify, Py.get, lift, Py.ret. simpl.
  destruct (located _ locate_by hook_value); simpl.
  - eexists. by rewrite <- app_assoc.
  - by eexists.
Qed.

(** C1 (at the input where the code departs from it): in a session whose
    registry defines [login_button], [select_element] called with the
    explicit kind [xpath] and the value [login_button] reaches no driver
    call and returns [None], and so do the other four decorated methods;
    the registry is not consulted, but the call does not proceed either.
    The sibling [_check_locate_by] resolves the same arguments to
    [(xpath, login_button)], and [fill_in_field] proceeds with them. *)
Theorem explicit_kind_call_is_dropped_by_decorator b :
  select_element located session_with_hooks
    (Py.VStr "login_button") (Py.VStr LocateBy.XPATH) b = (Py.Ok Py.VNone, b) /\
  wait_for_element_visible wait_outcome session_with_hooks
    (Py.VStr "login_button") (Py.VStr LocateBy.XPATH) b = (Py.Ok Py.VNone, b) /\
  wait_until_element_invisible wait_outcome session_with_hooks
    (Py.VStr "login_button") (Py.VStr LocateBy.XPATH) b = (Py.Ok Py.VNone, b) /\
  hover_over_element located session_with_hooks
    (Py.VStr "login_button") (Py.VStr LocateBy.XPATH) b = (Py.Ok Py.VNone, b) /\
  get_element_text located text_of session_with_hooks
    (Py.VStr "login_button") (Py.VStr LocateBy.XPATH) b = (Py.Ok Py.VNone, b) /\
  _check_locate_by session_with_hooks (Py.VStr "login_button") (Py.VStr LocateBy.XPATH) b
    = (Py.Ok (Py.VStr LocateBy.XPATH, Py.VStr "login_button"), b) /\
  exists rest,
    received (fill_in_field located session_with_hooks (Py.VStr "secret")
                (Py.VStr "login_button") (Py.VStr LocateBy.XPATH) b).2 =
    received b ++ find_element (Py.VStr LocateBy.XPATH) (Py.VStr "login_button") :: rest.
Proof.
  split_and!; try (by eapply check_locate_by_explicit_kind).
  - by apply _check_locate_by_explicit_kind.
  - apply fill_in_field_calls_find_element. by apply _check_locate_by_explicit_kind.
Qed.

(** C8, as the code has it: without a registry and without an explicit
    kind, every method behind the decorator is a no-op that returns [None];
    [_check_locate_by] instead hands [(False, name)] through, and
    [fill_in_field] calls the driver's [find_element] with that pair. *)
Theorem no_registry_no_kind driver_fn self input_text hook_value b :
  hooks self = None ->
  check_locate_by driver_fn self hook_value locate_by_default b = (Py.Ok Py.VNone, b) /\
  _check_locate_by self hook_value locate_by_default b
    = (Py.Ok (Py.VBool false, hook_value), b) /\
  exists rest,
    received (fill_in_field located self input_text hook_value locate_by_default b).2 =
    received b ++ find_element (Py.VBool false) hook_value :: rest.
Proof.
  intros Hnone. split_and!.
  - by apply check_locate_by_without_registry.
  - by apply _check_locate_by_without_registry.
  - apply fill_in_field_calls_find_element. by apply _check_locate_by_without_registry.
Qed.

(** C10: without a registry, each of the five decorated methods (and any
    other method put behind the decorator) performs no driver call and
    returns [None], also when an explicit locator kind is supplied. *)
Theorem no_registry_decorated_call_is_noop driver_fn self hook_value locate_by b :
  hooks self = None ->
  wait_for_element_visible wait_outcome self hook_value locate_by b = (Py.Ok Py.VNone, b) /\
  wait_until_element_invisible wait_outcome self hook_value locate_by b = (Py.Ok Py.VNone, b) /\
  select_element located self hook_value locate_by b = (Py.Ok Py.VNone, b) /\
  hover_over_element located self hook_value locate_by b = (Py.Ok Py.VNone, b) /\
  get_element_text located text_of self hook_value locate_by b = (Py.Ok Py.VNone, b) /\
  check_locate_by driver_fn self hook_value locate_by b = (Py.Ok Py.VNone, b).
Proof.
  intros Hnone. split_and!; by apply check_locate_by_without_registry.
Qed.

End LocatorResolution.

Section LocatorResolutionExamples.
Import DriverInterface.

(** The scenario of the specification: the hook name resolves to the
    stored pair and the element is clicked. *)
Example scenario_named_hook :
  select_element strict_located session_with_hooks
    (Py.VStr "login_button") locate_by_default studio =
  (Py.Ok Py.VNone,
   {| received := [find_element (Py.VStr "id") (Py.VStr "btn1"); click 0];
      fs := fs studio |}).
Proof. reflexivity. Qed.

Lemma no_registry_no_kind_witness :
  hooks session_without_hooks = None /\
  select_element strict_located session_without_hooks
    (Py.VStr "login_button") locate_by_default studio = (Py.Ok Py.VNone, studio) /\
  _check_locate_by session_without_hooks (Py.VStr "login_button") locate_by_default studio
    = (Py.Ok (Py.VBool false, Py.VStr "login_button"), studio) /\
  exists rest,
    received (fill_in_field strict_located session_without_hooks (Py.VStr "secret")
                (Py.VStr "login_button") locate_by_default studio).2 =
    received studio ++ find_element (Py.VBool false) (Py.VStr "login_button") :: rest.
Proof.
  split; [reflexivity|].
  apply (no_registry_no_kind strict_located (select_element_body strict_located)
           session_without_hooks (Py.VStr "secret") (Py.VStr "login_button") studio).
  reflexivity.
Defined.

(** The claim of a no-op fails for [fill_in_field]: without registry and
    without kind it sends [find_element(False, name)] to the driver, and
    the call fails with the engine's error. *)
Lemma no_registry_fill_in_field_reaches_driver :
  hooks session_without_hooks = None /\
  fill_in_field strict_located session_without_hooks (Py.VStr "secret")
    (Py.VStr "login_button") locate_by_default studio =
  (Py.Raise (Py.EngineError "invalid locator strategy"),
   {| received := [find_element (Py.VBool false) (Py.VStr "login_button")];
      fs := fs studio |}) /\
  fill_in_field strict_located session_without_hooks (Py.VStr "secret")
    (Py.VStr "login_button") locate_by_default studio <> (Py.Ok Py.VNone, studio).
Proof. split_and!; [reflexivity|reflexivity|discriminate]. Qed.

Lemma no_registry_decorated_call_is_noop_witness :
  hooks session_without_hooks = None /\
  wait_for_element_visible patient session_without_hooks
    (Py.VStr "//button") (Py.VStr LocateBy.XPATH) studio = (Py.Ok Py.VNone, studio) /\
  wait_until_element_invisible patient session_without_hooks
    (Py.VStr "//button") (Py.VStr LocateBy.XPATH) studio = (Py.Ok Py.VNone, studio) /\
  select_element strict_located session_without_hooks
    (Py.VStr "//button") (Py.VStr LocateBy.XPATH) studio = (Py.Ok Py.VNone, studio) /\
  hover_over_element strict_located session_without_hooks
    (Py.VStr "//button") (Py.VStr LocateBy.XPATH) studio = (Py.Ok Py.VNone, studio) /\
  get_element_text strict_located blank_text session_without_hooks
    (Py.VStr "//button") (Py.VStr LocateBy.XPATH) studio = (Py.Ok Py.VNone, studio) /\
  check_locate_by (select_element_body strict_located) session_without_hooks
    (Py.VStr "//button") (Py.VStr LocateBy.XPATH) studio = (Py.Ok Py.VNone, studio).
Proof.
  split; [reflexivity|].
  apply (no_registry_decorated_call_is_noop patient strict_located blank_text
           (select_element_body strict_located) session_without_hooks
           (Py.VStr "//button") (Py.VStr LocateBy.XPATH) studio).
  reflexivity.
Defined.

End LocatorResolutionExamples.

(** ** Screenshots *)

Section Screenshots.
Import DriverInterface.

(** The path handed to the driver: the directory string, the file name,
    a dash, the number of entries the directory lists, and [.png], put
    together without a separator of their own. *)
Lemma take_screenshot_path self (directory file_name : string) b es :
  directory <> "" ->
  fs b !! strip_dir directory = Some es ->
  received (take_screenshot self (Some directory) file_name b).2 =
  received b ++ [save_screenshot (directory +:+ file_name +:+ "-" +:+ pretty (size es) +:+ ".png")].
Proof.
  intros Hne Hdir. unfold take_screenshot, Py.bind, Py.ret, os_listdir. simpl.
  destruct directory as [|c directory]; [done|]. rewrite Hdir. simpl.
  unfold driver_save_screenshot, Py.bind, call_driver, Py.modify. simpl.
  repeat case_match; simplify_eq/=; done.
Qed.

(** With the separator at the end of the directory string the file lands
    in the directory, and the next call counts it. *)
Example take_screenshot_with_trailing_separator :
  let b1 := (take_screenshot session_without_hooks (Some "shots/") "shot" studio).2 in
  let b2 := (take_screenshot session_without_hooks (Some "shots/") "shot" b1).2 in
  received b2 = [save_screenshot "shots/shot-3.png"; save_screenshot "shots/shot-4.png"] /\
  fs b2 !! "shots" = Some {[ "a.png"; "b.png"; "c.png"; "shot-3.png"; "shot-4.png" ]}.
Proof. split; vm_compute; reflexivity. Qed.

(** C7 (at the input where the code departs from it): for the directory
    [shots] that holds three files, [take_screenshot] with base name
    [shot] writes the path [shotsshot-3.png]: a file of that name next to
    the directory, not [shot-3.png] in it.  The directory still holds
    three files, so the call that follows writes the same path again and
    not [shot-4.png]. *)
Theorem take_screenshot_without_trailing_separator :
  let b1 := (take_screenshot session_without_hooks (Some "shots") "shot" studio).2 in
  let b2 := (take_screenshot session_without_hooks (Some "shots") "shot" b1).2 in
  size <$> fs studio !! "shots" = Some 3 /\
  received b1 = [save_screenshot "shotsshot-3.png"] /\
  fs b1 !! "shots" = fs studio !! "shots" /\
  fs b1 !! "." = Some {[ "shots"; "shotsshot-3.png" ]} /\
  received b2 = [save_screenshot "shotsshot-3.png"; save_screenshot "shotsshot-3.png"] /\
  fs b2 = fs b1.
Proof. split_and!; vm_compute; reflexivity. Qed.

End Screenshots.

(** * Further properties *)

(** ** The retry loop on any target *)

Section RetryOutcomes.
Import Database.

Context {handle : Type}.
Implicit Types (body : Py.M world handle) (w : world).

Lemma rounds_snoc_attempt a err errs (evs : list event) :
  (evs ++ [Attempt a]) ++ [Warn err; Sleep delay] ++ rounds (S a) errs =
  evs ++ rounds a (err :: errs).
Proof. simpl. by rewrite <- app_assoc. Qed.

(** With [n] tries left, the loop either returns the handle of a try after
    fewer than [n] failed rounds, or gives up after exactly [n]. *)
Lemma retry_loop_outcome body (Hbody : is_attempt body) n :
  forall attempt w,
    attempt + n = S retry_limit ->
    exists errs,
      (exists conn,
          length errs < n /\
          retry_loop body attempt w =
          (Py.Ok conn,
           {| attempts := attempts w + length errs + 1;
              log := log w ++ rounds (attempts w) errs
                       ++ [Attempt (attempts w + length errs)] |})) \/
      (length errs = n /\
       retry_loop body attempt w =
       (Py.Raise ConnectionExhaustedError,
        {| attempts := attempts w + n; log := log w ++ rounds (attempts w) errs |})).
Proof.
  induction n as [|n IH]; intros attempt w Hn.
  - exists []. right. split; [done|].
    rewrite retry_loop_step, decide_False by lia. simpl.
    rewrite Nat.add_0_r, app_nil_r. by destruct w.
  - rewrite retry_loop_step, decide_True by lia.
    pose proof (Hbody w) as Hw. destruct (body w) as [[conn|err] w1]; simpl in Hw; subst w1.
    + exists []. left. exists conn. split; [simpl; lia|]. simpl.
      rewrite !Nat.add_0_r, Nat.add_1_r. done.
    + destruct (IH (attempt + 1)
                  (after_failure err
                     {| attempts := S (attempts w); log := log w ++ [Attempt (attempts w)] |}))
        as [errs [(conn & Hlen & Hloop)|(Hlen & Hloop)]]; [lia|..].
      * exists (err :: errs). left. exists conn. split; [simpl; lia|].
        rewrite Hloop. simpl. rewrite <- !app_assoc. simpl.
        replace (attempts w + S (length errs)) with (S (attempts w + length errs)) by lia.
        done.
      * exists (err :: errs). right. split; [simpl; lia|].
        rewrite Hloop. simpl. rewrite <- !app_assoc. simpl.
        replace (attempts w + S n) with (S (attempts w + n)) by lia.
        done.
Qed.

Lemma rounds_attempts a errs :
  length (filter is_Attempt (rounds a errs)) = length errs.
Proof.
  revert a. induction errs as [|e errs IH]; intros a; [done|]. cbn [rounds].
  rewrite filter_cons_True by done.
  rewrite !filter_cons_False by (simpl; tauto). simpl. by rewrite IH.
Qed.

Lemma rounds_sleeps a errs :
  filter is_Sleep (rounds a errs) = replicate (length errs) (Sleep 2).
Proof.
  revert a. induction errs as [|e errs IH]; intros a; [done|]. cbn [rounds].
  rewrite !filter_cons_False by (simpl; tauto).
  rewrite filter_cons_True by done. simpl. by rewrite IH.
Qed.

(** X1: whatever the target does, [connect_to_db] ends in one of two ways.
    Either it returns a handle, after at most three failed rounds; or it
    raises the give-up exception after exactly four.  It never lets the
    client library's own exception through, it makes between one and four
    attempts, and it sleeps 2 once per failed attempt. *)
Theorem connect_to_db_outcomes
    (c : client) tunnel connect (info : DatabaseConnInfo) (use_ssh : Z) w :
  exists (failed : nat) w',
    (connect_to_db (handle:=handle) c tunnel connect info use_ssh w).2 = w' /\
    ((exists conn,
         (connect_to_db c tunnel connect info use_ssh w).1 = Py.Ok conn /\
         failed <= 3 /\ attempts w' = attempts w + failed + 1) \/
     ((connect_to_db c tunnel connect info use_ssh w).1 = Py.Raise ConnectionExhaustedError /\
      failed = 4 /\ attempts w' = attempts w + 4)) /\
    exists new_events,
      log w' = log w ++ new_events /\
      length (filter is_Attempt new_events) = attempts w' - attempts w /\
      filter is_Sleep new_events = replicate failed (Sleep 2).
Proof.
  rewrite connect_to_db_loop.
  destruct (retry_loop_outcome _ (try_body_is_attempt c tunnel connect info use_ssh)
              4 0 w eq_refl) as [errs [(conn & Hlen & Hloop)|(Hlen & Hloop)]];
    rewrite Hloop; simpl; exists (length errs); eexists; (split; [done|]); simpl.
  - split; [left; exists conn; split_and!; [done|lia|done]|].
    eexists. split; [done|].
    rewrite !filter_app, length_app, rounds_attempts, rounds_sleeps. simpl.
    split; [lia|by rewrite app_nil_r].
  - split; [right; split_and!; [done|lia|done]|].
    eexists. split; [done|].
    rewrite rounds_attempts, rounds_sleeps. split; [lia|done].
Qed.

(** X2: when the tunnel is asked for but the connection data was built
    without a key path, the attribute [ssh_key] does not exist: every try
    fails with that AttributeError before the tunnel or the database is
    contacted, and [connect_to_db] gives up after four rounds whatever the
    tunnel and the database would have answered. *)
Theorem tunnel_without_key_always_gives_up
    (c : client) tunnel connect (info : DatabaseConnInfo) (use_ssh : Z) w :
  ssh_key info = None ->
  (c = MySqlClient /\ use_ssh = 1%Z) \/ (c = PostGreClient /\ use_ssh <> 0%Z) ->
  connect_to_db (handle:=handle) c tunnel connect info use_ssh w =
  (Py.Raise ConnectionExhaustedError,
   {| attempts := attempts w + 4;
      log := log w ++
             rounds (attempts w)
               (replicate 4 (Py.AttributeError
                  "'DatabaseConnInfo' object has no attribute 'ssh_key'")) |}).
Proof.
  intros Hkey Hssh. rewrite connect_to_db_loop.
  assert (forall w1, try_body c tunnel connect info use_ssh w1 =
            (Py.Raise (Py.AttributeError
               "'DatabaseConnInfo' object has no attribute 'ssh_key'"),
             {| attempts := S (attempts w1); log := log w1 ++ [Attempt (attempts w1)] |}))
    as Hbody.
  { intros w1. destruct Hssh as [[-> ->]|[-> Hne]]; simpl.
    - unfold mysql_try, Py.bind, begin_attempt, through_tunnel. simpl. by rewrite Hkey.
    - unfold postgre_try, Py.bind, begin_attempt, through_tunnel. simpl.
      rewrite (proj2 (Z.eqb_neq _ _) Hne). by rewrite Hkey. }
  do 4 (rewrite retry_loop_step, Hbody; simpl).
  rewrite retry_loop_step. simpl. unfold after_failure. simpl.
  rewrite <- !app_assoc. simpl.
  replace (S (S (S (S (attempts w))))) with (attempts w + 4) by lia.
  replace (S (S (S (attempts w)))) with (attempts w + 3) by lia.
  replace (S (S (attempts w))) with (attempts w + 2) by lia.
  replace (S (attempts w)) with (attempts w + 1) by lia.
  repeat f_equal; lia.
Qed.

(** X3: the two classes read the flag [use_ssh] differently.  For a value
    other than 0 and 1, [MySql.connect_to_db] connects directly, exactly as
    for 0 and whatever the tunnel would do, while [PostGre.connect_to_db]
    goes through the tunnel, exactly as for 1. *)
Theorem use_ssh_is_read_differently
    tunnel tunnel' connect (info : DatabaseConnInfo) (use_ssh : Z) w :
  use_ssh <> 0%Z -> use_ssh <> 1%Z ->
  MySql.connect_to_db (handle:=handle) tunnel connect info use_ssh w =
    MySql.connect_to_db tunnel' connect info 0 w /\
  PostGre.connect_to_db (handle:=handle) tunnel connect info use_ssh w =
    PostGre.connect_to_db tunnel connect info 1 w.
Proof.
  intros H0 H1. unfold MySql.connect_to_db, PostGre.connect_to_db, mysql_try, postgre_try.
  rewrite (proj2 (Z.eqb_neq _ _) H0), (proj2 (Z.eqb_neq _ _) H1). done.
Qed.

End RetryOutcomes.

Section RetryOutcomesExamples.
Import Database.

Lemma tunnel_without_key_always_gives_up_witness :
  ssh_key localhost = None /\
  connect_to_db MySqlClient no_tunnel (accepting_from 0) localhost 1 fresh =
  (Py.Raise ConnectionExhaustedError,
   {| attempts := 4;
      log := rounds 0 (replicate 4 (Py.AttributeError
                         "'DatabaseConnInfo' object has no attribute 'ssh_key'")) |}).
Proof.
  split; [reflexivity|].
  apply (tunnel_without_key_always_gives_up MySqlClient no_tunnel (accepting_from 0)
           localhost 1 fresh).
  - reflexivity.
  - left. split; reflexivity.
Defined.

Lemma use_ssh_is_read_differently_witness :
  MySql.connect_to_db closed_tunnel (accepting_from 0) keyed 2 fresh =
    MySql.connect_to_db no_tunnel (accepting_from 0) keyed 0 fresh /\
  PostGre.connect_to_db closed_tunnel (accepting_from 0) keyed 2 fresh =
    PostGre.connect_to_db closed_tunnel (accepting_from 0) keyed 1 fresh.
Proof.
  apply (use_ssh_is_read_differently closed_tunnel no_tunnel (accepting_from 0) keyed 2 fresh).
  - discriminate.
  - discriminate.
Defined.

(** With the flag at 2 and a tunnel that never opens, [MySql] connects at
    once and [PostGre] gives up. *)
Example use_ssh_two :
  (MySql.connect_to_db closed_tunnel (accepting_from 0) keyed 2 fresh).1 = Py.Ok 0 /\
  (PostGre.connect_to_db closed_tunnel (accepting_from 0) keyed 2 fresh).1 =
    Py.Raise ConnectionExhaustedError.
Proof. split; reflexivity. Qed.

End RetryOutcomesExamples.

(** ** Queries on any result *)

Section QueryOutcomes.
Import Database.

Context {handle : Type}.
Variable run : handle -> string -> Py.result (list row).

Ltac run_query Hrun :=
  unfold execute_query_return_results,
    MySql.execute_query_return_results, PostGre.execute_query_return_results,
    MySql.execute_query, PostGre.execute_query,
    SqlLite3.execute_script, SqlLite3.execute_script_get_all_results,
    mysql_query_results, postgre_query_results, conn_cursor, cursor_execute,
    cursor_fetchall, conn_close, conn_commit, Py.bind, record_call, Py.modify,
    Py.get, Py.raise, new_list, Py.ret, is_;
  rewrite Hrun; simpl.

(** X4: for a script that produces rows, any number of them,
    [execute_query_return_results] returns the list [fetchall] built,
    holding all the rows in order.  [MySql] only executes and fetches;
    [PostGre] closes the connection after fetching. *)
Theorem query_returns_every_row (c : client) (conn : handle) (script : string) s rows :
  run conn script = Py.Ok rows ->
  execute_query_return_results c run conn script s =
  (Py.Ok {| ident := next_ident s; items := rows |},
   {| next_ident := S (S (next_ident s));
      result_set := Some rows;
      calls := calls s ++ [CursorExecute script; Fetchall]
                 ++ match c with MySqlClient => [] | PostGreClient => [Close] end |}).
Proof.
  intros Hrun. destruct c; run_query Hrun;
    (rewrite bool_decide_eq_false_2 by lia); simpl; by rewrite <- !app_assoc.
Qed.

(** X5: when the script fails, the client library's error reaches the
    caller of each of the four query helpers unchanged, and nothing
    follows the failed [execute]: no fetch, no commit, and for [PostGre] no
    close either, so the connection stays open. *)
Theorem failed_script_leaves_connection_open (conn : handle) (script : string) s err :
  run conn script = Py.Raise err ->
  let s' := {| next_ident := next_ident s;
               result_set := result_set s;
               calls := calls s ++ [CursorExecute script] |} in
  MySql.execute_query run conn script s = (Py.Raise err, s') /\
  PostGre.execute_query run conn script s = (Py.Raise err, s') /\
  MySql.execute_query_return_results run conn script s = (Py.Raise err, s') /\
  PostGre.execute_query_return_results run conn script s = (Py.Raise err, s').
Proof. intros Hrun. split_and!; by run_query Hrun. Qed.

(** X6: after a script that ran, [MySql.execute_query] commits and leaves
    the connection open, while [PostGre.execute_query] closes the
    connection and never commits; both return [True]. *)
Theorem execute_query_commit_or_close (conn : handle) (script : string) s rows :
  run conn script = Py.Ok rows ->
  MySql.execute_query run conn script s =
    (Py.Ok true,
     {| next_ident := next_ident s; result_set := Some rows;
        calls := calls s ++ [CursorExecute script; Commit] |}) /\
  PostGre.execute_query run conn script s =
    (Py.Ok true,
     {| next_ident := next_ident s; result_set := Some rows;
        calls := calls s ++ [CursorExecute script; Close] |}).
Proof. intros Hrun. split; run_query Hrun; by rewrite <- !app_assoc. Qed.

(** X7: [SqlLite3.execute_script_get_all_results] returns whatever rows the
    script produces, the empty list included, and a failing script makes
    it raise the library's error; it has no test for an empty result. *)
Theorem sqlite_returns_rows_or_error (conn : handle) (script : string) s :
  match run conn script with
  | Py.Ok rows =>
      SqlLite3.execute_script_get_all_results run conn script s =
      (Py.Ok {| ident := next_ident s; items := rows |},
       {| next_ident := S (next_ident s); result_set := Some rows;
          calls := calls s ++ [CursorExecute script; Fetchall] |}) /\
      SqlLite3.execute_script run conn script s =
      (Py.Ok true,
       {| next_ident := next_ident s; result_set := Some rows;
          calls := calls s ++ [CursorExecute script] |})
  | Py.Raise err =>
      (SqlLite3.execute_script_get_all_results run conn script s).1 = Py.Raise err /\
      (SqlLite3.execute_script run conn script s).1 = Py.Raise err
  end.
Proof.
  destruct (run conn script) as [rows|err] eqn:Hrun; split; run_query Hrun;
    by rewrite <- ?app_assoc.
Qed.

End QueryOutcomes.

Section QueryOutcomesExamples.
Import Database.

Lemma query_returns_every_row_witness :
  execute_query_return_results PostGreClient two_rows 1 "SELECT id, name FROM users" idle =
  (Py.Ok {| ident := 0; items := [[Py.VInt 1; Py.VStr "ann"]; [Py.VInt 2; Py.VStr "bob"]] |},
   {| next_ident := 2;
      result_set := Some [[Py.VInt 1; Py.VStr "ann"]; [Py.VInt 2; Py.VStr "bob"]];
      calls := [CursorExecute "SELECT id, name FROM users"; Fetchall; Close] |}).
Proof.
  apply (query_returns_every_row two_rows PostGreClient 1 "SELECT id, name FROM users" idle).
  reflexivity.
Defined.

Lemma failed_script_leaves_connection_open_witness :
  let s' := {| next_ident := 0; result_set := None; calls := [CursorExecute "SELEKT 1"] |} in
  MySql.execute_query failing_scripts 1 "SELEKT 1" idle
    = (Py.Raise (Py.EngineError "syntax error"), s') /\
  PostGre.execute_query failing_scripts 1 "SELEKT 1" idle
    = (Py.Raise (Py.EngineError "syntax error"), s') /\
  MySql.execute_query_return_results failing_scripts 1 "SELEKT 1" idle
    = (Py.Raise (Py.EngineError "syntax error"), s') /\
  PostGre.execute_query_return_results failing_scripts 1 "SELEKT 1" idle
    = (Py.Raise (Py.EngineError "syntax error"), s').
Proof.
  apply (failed_script_leaves_connection_open failing_scripts 1 "SELEKT 1" idle
           (Py.EngineError "syntax error")).
  reflexivity.
Defined.

Lemma execute_query_commit_or_close_witness :
  MySql.execute_query no_rows 1 "DELETE FROM users" idle =
    (Py.Ok true,
     {| next_ident := 0; result_set := Some [];
        calls := [CursorExecute "DELETE FROM users"; Commit] |}) /\
  PostGre.execute_query no_rows 1 "DELETE FROM users" idle =
    (Py.Ok true,
     {| next_ident := 0; result_set := Some [];
        calls := [CursorExecute "DELETE FROM users"; Close] |}).
Proof.
  apply (execute_query_commit_or_close no_rows 1 "DELETE FROM users" idle []).
  reflexivity.
Defined.

End QueryOutcomesExamples.

(** ** String methods *)

Section StringMethods.
Import PyStr.

Implicit Types (s old new sub pre post : string) (c : ascii).

Lemma app_nil_str s : "" +:+ s = s.
Proof. reflexivity. Qed.

Lemma app_cons_str c s1 s2 : String c s1 +:+ s2 = String c (s1 +:+ s2).
Proof. reflexivity. Qed.

Lemma app_empty_r s : s +:+ "" = s.
Proof. induction s as [|c s IH]; [done|]. by rewrite app_cons_str, IH. Qed.

Lemma app_assoc_str s1 s2 s3 : (s1 +:+ s2) +:+ s3 = s1 +:+ (s2 +:+ s3).
Proof. induction s1 as [|c s1 IH]; [done|]. by rewrite !app_cons_str, IH. Qed.

Lemma length_app_str s1 s2 :
  String.length (s1 +:+ s2) = String.length s1 + String.length s2.
Proof. induction s1 as [|c s1 IH]; [done|]. rewrite app_cons_str. simpl. by rewrite IH. Qed.

Lemma chars_app s1 s2 : chars (s1 +:+ s2) = chars s1 ++ chars s2.
Proof.
  unfold chars. induction s1 as [|c s1 IH]; [done|].
  rewrite app_cons_str. simpl. by rewrite IH.
Qed.

Lemma chars_cons c s : chars (String c s) = c :: chars s.
Proof. done. Qed.

Lemma starts_with_app sub post : starts_with sub (sub +:+ post) = true.
Proof.
  induction sub as [|c sub IH]; [done|]. rewrite app_cons_str. simpl.
  by rewrite Ascii.eqb_refl.
Qed.

Lemma starts_with_true sub s :
  starts_with sub s = true -> exists post, s = sub +:+ post.
Proof.
  revert s. induction sub as [|c sub IH]; intros s Hs; [by exists s|].
  destruct s as [|d s]; [done|]. simpl in Hs.
  destruct (Ascii.eqb_spec c d) as [->|]; [|done].
  destruct (IH s Hs) as [post ->]. by exists post.
Qed.

Lemma starts_with_other_char c sub d s :
  c <> d -> starts_with (String c sub) (String d s) = false.
Proof. intros Hne. simpl. by rewrite (proj2 (Ascii.eqb_neq c d) Hne). Qed.

Lemma occurs_cons sub c s : occurs sub s -> occurs sub (String c s).
Proof. intros (pre & post & ->). by exists (String c pre), post. Qed.

Lemma starts_with_occurs sub s : starts_with sub s = true -> occurs sub s.
Proof. intros [post ->]%starts_with_true. by exists "", post. Qed.

(** Passing over a prefix. *)
Lemma replace_from_skip old new pre s :
  replace_from old new (String.length pre) (pre +:+ s) = replace_from old new 0 s.
Proof.
  induction pre as [|c pre IH]; [by destruct s|]. rewrite app_cons_str. simpl. done.
Qed.

(** Where [old] starts, [new] is written and reading goes on behind it. *)
Lemma replace_from_at_occurrence c old new post :
  replace_from (String c old) new 0 (String c old +:+ post) =
  new +:+ replace_from (String c old) new 0 post.
Proof.
  pose proof (starts_with_app (String c old) post) as Hstart.
  rewrite app_cons_str in *. cbn [replace_from]. rewrite Hstart.
  replace (String.length (String c old) - 1) with (String.length old)
    by (cbn [String.length]; lia).
  by rewrite replace_from_skip.
Qed.

(** A stretch without the first character of [old] is copied. *)
Lemma replace_from_copies c old new pre s :
  c ∉ chars pre ->
  replace_from (String c old) new 0 (pre +:+ s) =
  pre +:+ replace_from (String c old) new 0 s.
Proof.
  induction pre as [|d pre IH]; intros Hpre; [done|].
  rewrite chars_cons in Hpre. apply not_elem_of_cons in Hpre as [Hd Hpre].
  rewrite !app_cons_str. cbn [replace_from]. rewrite starts_with_other_char by done.
  by rewrite IH.
Qed.

Lemma replace_from_copies_all c old new s :
  c ∉ chars s -> replace_from (String c old) new 0 s = s.
Proof.
  intros Hs. rewrite <- (app_empty_r s) at 1.
  rewrite replace_from_copies by done. simpl. apply app_empty_r.
Qed.

(** Without an occurrence nothing changes. *)
Lemma replace_without_occurrence s old new :
  old <> "" -> ~ occurs old s -> replace s old new = s.
Proof.
  intros Hold Hocc. unfold replace. destruct old as [|c old]; [done|]. clear Hold.
  induction s as [|d s IH]; [done|]. cbn [replace_from].
  destruct (starts_with (String c old) (String d s)) eqn:Hstart.
  - destruct Hocc. by apply starts_with_occurs.
  - rewrite IH; [done|]. intros Hs. apply Hocc. by apply occurs_cons.
Qed.

(** Removing one character. *)
Lemma chars_replace_char_by_nothing c s :
  chars (replace s (String c "") "") = filter (fun d => d <> c) (chars s).
Proof.
  unfold replace. induction s as [|d s IH]; [done|].
  rewrite chars_cons. cbn [replace_from starts_with].
  destruct (Ascii.eqb_spec c d) as [->|Hne].
  - cbn [String.length]. rewrite app_nil_str. simpl.
    rewrite filter_cons_False by (intros H; by apply H). done.
  - rewrite chars_cons, filter_cons_True by done. by rewrite IH.
Qed.

(** [find] and [rfind] of one character. *)
Lemma find_char_absent c s : c ∉ chars s -> find (String c "") s = None.
Proof.
  induction s as [|d s IH]; intros Hs; [done|].
  rewrite chars_cons in Hs. apply not_elem_of_cons in Hs as [Hd Hs].
  cbn [find starts_with]. rewrite (proj2 (Ascii.eqb_neq c d) Hd). by rewrite IH.
Qed.

Lemma find_char_present c s : c ∈ chars s -> is_Some (find (String c "") s).
Proof.
  induction s as [|d s IH]; intros Hs; [by apply elem_of_nil in Hs|].
  rewrite chars_cons in Hs. cbn [find starts_with].
  destruct (Ascii.eqb_spec c d) as [->|Hne]; [by eexists|].
  apply elem_of_cons in Hs as [?|Hs]; [done|].
  destruct (IH Hs) as [i ->]. by eexists.
Qed.

Lemma find_char_first c pre post :
  c ∉ chars pre ->
  find (String c "") (pre +:+ String c post) = Some (String.length pre).
Proof.
  induction pre as [|d pre IH]; intros Hpre.
  - rewrite app_nil_str. cbn [find starts_with]. by rewrite Ascii.eqb_refl.
  - rewrite chars_cons in Hpre. apply not_elem_of_cons in Hpre as [Hd Hpre].
    rewrite app_cons_str. cbn [find starts_with].
    rewrite (proj2 (Ascii.eqb_neq c d) Hd). by rewrite IH.
Qed.

Lemma rfind_char_absent c s : c ∉ chars s -> rfind (String c "") s = None.
Proof.
  induction s as [|d s IH]; intros Hs; [done|].
  rewrite chars_cons in Hs. apply not_elem_of_cons in Hs as [Hd Hs].
  cbn [rfind starts_with]. rewrite IH by done.
  by rewrite (proj2 (Ascii.eqb_neq c d) Hd).
Qed.

Lemma rfind_char_present c s : c ∈ chars s -> is_Some (rfind (String c "") s).
Proof.
  induction s as [|d s IH]; intros Hs; [by apply elem_of_nil in Hs|].
  rewrite chars_cons in Hs. cbn [rfind starts_with].
  destruct (rfind (String c "") s) as [i|] eqn:Hr; [by eexists|].
  destruct (Ascii.eqb_spec c d) as [->|Hne]; [by eexists|].
  apply elem_of_cons in Hs as [?|Hs]; [done|]. by destruct (IH Hs).
Qed.

Lemma rfind_char_last c pre post :
  c ∉ chars post ->
  rfind (String c "") (pre +:+ String c post) = Some (String.length pre).
Proof.
  intros Hpost. induction pre as [|d pre IH].
  - rewrite app_nil_str. cbn [rfind starts_with]. rewrite rfind_char_absent by done.
    by rewrite Ascii.eqb_refl.
  - rewrite app_cons_str. cbn [rfind]. by rewrite IH.
Qed.

(** Slices. *)
Lemma substring_nothing n s : String.substring n 0 s = "".
Proof. revert s. induction n as [|n IH]; intros [|c s]; simpl; auto. Qed.

Lemma substring_front s1 s2 :
  String.substring 0 (String.length s1) (s1 +:+ s2) = s1.
Proof.
  induction s1 as [|c s1 IH]; [by destruct s2|].
  rewrite app_cons_str. simpl. by rewrite IH.
Qed.

Lemma substring_behind pre m s :
  String.substring (String.length pre) m (pre +:+ s) = String.substring 0 m s.
Proof. induction pre as [|c pre IH]; [done|]. rewrite app_cons_str. simpl. done. Qed.

Lemma slice_middle pre mid post :
  slice (pre +:+ mid +:+ post) (String.length pre) (String.length (pre +:+ mid)) = mid.
Proof.
  unfold slice. rewrite length_app_str, substring_behind.
  replace (String.length pre + String.length mid - String.length pre)
    with (String.length mid) by lia.
  apply substring_front.
Qed.

Lemma slice_backwards s a b : b <= a -> slice s a b = "".
Proof.
  intros Hle. unfold slice. replace (b - a) with 0 by lia. apply substring_nothing.
Qed.

(** Joining. *)
Lemma join_cons sep x y rest :
  join sep (x :: y :: rest) = x +:+ sep +:+ join sep (y :: rest).
Proof. done. Qed.

Lemma join_app sep (xs ys : list string) :
  xs <> [] -> ys <> [] ->
  join sep (xs ++ ys) = join sep xs +:+ sep +:+ join sep ys.
Proof.
  intros Hxs Hys. induction xs as [|x xs IH]; [done|].
  destruct xs as [|x' xs].
  - destruct ys as [|y ys]; [done|]. done.
  - change ((x :: x' :: xs) ++ ys) with (x :: x' :: (xs ++ ys)).
    rewrite !join_cons. change (x' :: (xs ++ ys)) with ((x' :: xs) ++ ys).
    rewrite IH by done. by rewrite !app_assoc_str.
Qed.

End StringMethods.

(** ** Script tokens *)

Section ScriptTokens.
Import PyStr DatabaseOps.

(** X8: tokens that do not occur in the script leave it as it is, however
    many of them are given (none at all included). *)
Theorem absent_tokens_change_nothing
    (db_script : string) (tokens_n_values : list (string * string)) :
  (forall kv, kv ∈ tokens_n_values -> kv.1 <> "" /\ ~ occurs kv.1 db_script) ->
  replace_script_tokens db_script tokens_n_values = db_script.
Proof.
  unfold replace_script_tokens.
  induction tokens_n_values as [|kv rest IH]; intros Habsent; [done|].
  destruct (Habsent kv) as [Hne Hocc]; [apply elem_of_cons; by left|].
  cbn [foldl]. rewrite replace_without_occurrence by done.
  apply IH. intros kv' Hin. apply Habsent. apply elem_of_cons. by right.
Qed.

(** X9: a token is replaced at every place it stands.  For a token whose
    first character occurs nowhere else in the script, the script is its
    pieces joined by the token, and the result is the same pieces joined
    by the value. *)
Theorem token_is_replaced_everywhere
    (c : ascii) (token value : string) (pieces : list string) :
  Forall (fun piece => c ∉ chars piece) pieces ->
  replace_script_tokens (join (String c token) pieces) [(String c token, value)] =
  join value pieces.
Proof.
  unfold replace_script_tokens. cbn [foldl fst snd]. unfold replace.
  induction 1 as [|piece pieces Hpiece Hpieces IH]; [done|].
  destruct pieces as [|piece' pieces].
  - cbn [join]. by apply replace_from_copies_all.
  - rewrite !join_cons. rewrite replace_from_copies by done.
    rewrite replace_from_at_occurrence. by rewrite IH.
Qed.

End ScriptTokens.

Section ScriptTokensExamples.
Import PyStr DatabaseOps.

Lemma absent_tokens_change_nothing_witness :
  replace_script_tokens "ab" [("c", "x"); ("ba", "y")] = "ab".
Proof.
  apply (absent_tokens_change_nothing "ab" [("c", "x"); ("ba", "y")]).
  intros kv Hin. split.
  - apply elem_of_cons in Hin as [->|Hin]; [discriminate|].
    apply elem_of_cons in Hin as [->|Hin]; [discriminate|]. by apply elem_of_nil in Hin.
  - intros (pre & post & Heq).
    apply elem_of_cons in Hin as [->|Hin]; [|apply elem_of_cons in Hin as [->|Hin]];
      [..|by apply elem_of_nil in Hin]; simpl in Heq;
      destruct pre as [|a [|b [|d pre]]]; simplify_eq/=.
Defined.

Lemma token_is_replaced_everywhere_witness :
  replace_script_tokens "SELECT * FROM $t WHERE $t.id = 1" [("$t", "users")] =
  "SELECT * FROM users WHERE users.id = 1".
Proof.
  apply (token_is_replaced_everywhere "$" "t" "users"
           ["SELECT * FROM "; " WHERE "; ".id = 1"]).
  repeat constructor; vm_compute; intros Hin;
    repeat (apply elem_of_cons in Hin as [Hin|Hin]; [discriminate Hin|]);
    by apply elem_of_nil in Hin.
Defined.

(** The values are put in one after the other: a later token also
    rewrites what an earlier value brought in. *)
Example tokens_apply_in_order :
  replace_script_tokens "a" [("a", "b"); ("b", "c")] = "c" /\
  replace_script_tokens "a" [("b", "c"); ("a", "b")] = "b".
Proof. split; reflexivity. Qed.

End ScriptTokensExamples.

(** ** The string helper *)

Section EmailDomain.
Import PyStr StringHelper.

(** X10: [replace_email_domain] raises ValueError exactly when the email
    has no ["@"] or has no ["."]; every other email gives a string. *)
Theorem replace_email_domain_value_error (email domain : string) :
  (exists msg, replace_email_domain email domain = ValueError msg) <->
  ("@"%char ∉ chars email \/ "."%char ∉ chars email).
Proof.
  unfold replace_email_domain, index, rindex. split.
  - intros [msg Hmsg].
    destruct (decide ("@"%char ∈ chars email)) as [Hat|Hat]; [|by left].
    destruct (decide ("."%char ∈ chars email)) as [Hdot|Hdot]; [|by right].
    destruct (find_char_present _ _ Hat) as [a Ha].
    destruct (rfind_char_present _ _ Hdot) as [d Hd].
    by rewrite Ha, Hd in Hmsg.
  - intros [Hat|Hdot].
    + rewrite find_char_absent by done. by eexists.
    + rewrite (rfind_char_absent _ _ Hdot). destruct (find "@" email); by eexists.
Qed.

(** X11: for an email of the shape [local@dom.ext], with no ["@"] in
    [local] or [ext] and no ["."] in [ext], the text from the ["@"] up to
    the last ["."] is replaced by the new domain.  The ["@"] belongs to the
    replaced text: the result has one only if the new domain brings it. *)
Theorem replace_email_domain_well_formed (local dom ext domain : string) :
  "@"%char ∉ chars local ->
  "@"%char ∉ chars ext ->
  "."%char ∉ chars ext ->
  replace_email_domain (local +:+ "@" +:+ dom +:+ "." +:+ ext) domain =
  Returns (local +:+ domain +:+ "." +:+ ext).
Proof.
  intros Hlocal Hext_at Hext_dot. unfold replace_email_domain, index, rindex.
  change ("@" +:+ dom +:+ "." +:+ ext) with (String "@" (dom +:+ "." +:+ ext)).
  rewrite find_char_first by done.
  change (String "@" (dom +:+ "." +:+ ext)) with (("@" +:+ dom) +:+ String "." ext).
  rewrite <- (app_assoc_str local ("@" +:+ dom) (String "." ext)).
  rewrite rfind_char_last by done.
  rewrite (app_assoc_str local ("@" +:+ dom) (String "." ext)).
  rewrite slice_middle. f_equal. unfold replace.
  change ("@" +:+ dom) with (String "@" dom).
  rewrite replace_from_copies by done.
  rewrite replace_from_at_occurrence. do 2 f_equal.
  apply replace_from_copies_all.
  change ("." +:+ ext) with (String "." ext).
  rewrite chars_cons. apply not_elem_of_cons. split; [discriminate|done].
Qed.

(** X12: when the last ["."] stands before the first ["@"], as in
    [first.last@host], the text to replace is empty, and Python's
    [replace] then writes the new domain in front of the email and after
    each of its characters. *)
Theorem replace_email_domain_dot_before_at (pre mid post domain : string) :
  "@"%char ∉ chars pre ->
  "@"%char ∉ chars mid ->
  "."%char ∉ chars mid ->
  "."%char ∉ chars post ->
  replace_email_domain (pre +:+ "." +:+ mid +:+ "@" +:+ post) domain =
  Returns (domain +:+ interleave domain (pre +:+ "." +:+ mid +:+ "@" +:+ post)).
Proof.
  intros Hpre Hmid_at Hmid_dot Hpost. unfold replace_email_domain, index, rindex.
  set (email := pre +:+ "." +:+ mid +:+ "@" +:+ post).
  assert (find "@" email = Some (String.length (pre +:+ "." +:+ mid))) as ->.
  { unfold email.
    replace (pre +:+ "." +:+ mid +:+ "@" +:+ post)
      with ((pre +:+ "." +:+ mid) +:+ String "@" post)
      by (by rewrite !app_assoc_str).
    apply find_char_first. rewrite !chars_app. rewrite !not_elem_of_app.
    split_and!; [done| |done].
    intros Hin. apply elem_of_cons in Hin as [Hin|Hin]; [discriminate|].
    by apply elem_of_nil in Hin. }
  assert (rfind "." email = Some (String.length pre)) as ->.
  { unfold email.
    change ("." +:+ mid +:+ "@" +:+ post) with (String "." (mid +:+ "@" +:+ post)).
    apply rfind_char_last. rewrite !chars_app, !not_elem_of_app.
    split_and!; [done| |done].
    intros Hin. apply elem_of_cons in Hin as [Hin|Hin]; [discriminate|].
    by apply elem_of_nil in Hin. }
  rewrite slice_backwards; [done|]. rewrite length_app_str. lia.
Qed.

End EmailDomain.

Section EmailDomainExamples.
Import PyStr StringHelper.

Ltac no_char :=
  vm_compute; intros Hin;
  repeat (apply elem_of_cons in Hin as [Hin|Hin]; [discriminate Hin|]);
  by apply elem_of_nil in Hin.

Lemma replace_email_domain_well_formed_witness :
  replace_email_domain "ann@example.com" "@test" = Returns "ann@test.com" /\
  replace_email_domain "ann@example.com" "test" = Returns "anntest.com".
Proof.
  split.
  - apply (replace_email_domain_well_formed "ann" "example" "com" "@test"); no_char.
  - apply (replace_email_domain_well_formed "ann" "example" "com" "test"); no_char.
Defined.

Lemma replace_email_domain_dot_before_at_witness :
  replace_email_domain "a.b@c" "-" = Returns "-a-.-b-@-c-".
Proof.
  apply (replace_email_domain_dot_before_at "a" "b" "c" "-"); no_char.
Defined.

End EmailDomainExamples.

Section Csv.
Import PyStr StringHelper.

Variable repr_str : string -> string.

(** X13: with [add_single_quotes=True] the separator plays no part, and
    the result holds no square bracket at all: those of the list display
    are removed, and so is every bracket inside an item. *)
Theorem quoted_csv_ignores_separator_and_brackets
    (list_items : list Py.value) (seperator seperator' : Py.value) :
  convert_to_csv repr_str (List list_items) (Py.VBool true) seperator =
    convert_to_csv repr_str (List list_items) (Py.VBool true) seperator' /\
  exists csv,
    convert_to_csv repr_str (List list_items) (Py.VBool true) seperator = Some csv /\
    ("["%char ∉ chars csv) /\ ("]"%char ∉ chars csv).
Proof.
  split; [done|]. eexists. split; [done|].
  rewrite !chars_replace_char_by_nothing. split.
  - intros Hin. apply list_elem_of_filter in Hin as [_ Hin].
    by apply list_elem_of_filter in Hin as [Hne _].
  - intros Hin. by apply list_elem_of_filter in Hin as [Hne _].
Qed.

(** X14: without the quotes (any flag that is not [True] itself), the
    result for two lists put together is the result for the first, the
    separator, and the result for the second. *)
Theorem csv_of_appended_lists
    (xs ys : list Py.value) (add_single_quotes seperator : Py.value) :
  add_single_quotes <> Py.VBool true ->
  xs <> [] -> ys <> [] ->
  exists a b,
    convert_to_csv repr_str (List xs) add_single_quotes seperator = Some a /\
    convert_to_csv repr_str (List ys) add_single_quotes seperator = Some b /\
    convert_to_csv repr_str (List (xs ++ ys)) add_single_quotes seperator =
      Some (a +:+ str seperator +:+ b).
Proof.
  intros Hflag Hxs Hys.
  exists (join (str seperator) (map str xs)), (join (str seperator) (map str ys)).
  assert (forall items,
    convert_to_csv repr_str (List items) add_single_quotes seperator =
    Some (join (str seperator) (map str items))) as Hplain.
  { intros items. unfold convert_to_csv. by destruct add_single_quotes as [|[|]| |]. }
  rewrite !Hplain. split_and!; [done..|].
  rewrite map_app, join_app; [done|by destruct xs|by destruct ys].
Qed.

End Csv.

Section CsvExamples.
Import PyStr StringHelper.

Lemma csv_of_appended_lists_witness :
  exists a b,
    convert_to_csv (fun s => s) (List [Py.VInt 1; Py.VStr "two"]) (Py.VInt 1) (Py.VStr ";")
      = Some a /\
    convert_to_csv (fun s => s) (List [Py.VNone]) (Py.VInt 1) (Py.VStr ";") = Some b /\
    convert_to_csv (fun s => s) (List ([Py.VInt 1; Py.VStr "two"] ++ [Py.VNone]))
      (Py.VInt 1) (Py.VStr ";") = Some (a +:+ str (Py.VStr ";") +:+ b).
Proof.
  apply (csv_of_appended_lists (fun s => s) [Py.VInt 1; Py.VStr "two"] [Py.VNone]
           (Py.VInt 1) (Py.VStr ";")); discriminate.
Defined.

Example csv_plain :
  convert_to_csv (fun s => s) (List [Py.VInt 1; Py.VStr "two"; Py.VNone])
    (Py.VBool false) (Py.VStr ",") = Some "1,two,None".
Proof. reflexivity. Qed.

End CsvExamples.

(** ** Hook names through both resolution paths *)

Section NamedHooks.
Import DriverInterface.

Variable located : list driver_call -> Py.value -> Py.value -> Py.result nat.

Implicit Types (self : DriverActions) (b : browser).
Implicit Types (driver_fn : DriverActions -> Py.value -> Py.value -> Py.M browser Py.value).

Lemma fill_in_field_after_resolution self input_text hook_value locate_by kind value b :
  _check_locate_by self hook_value locate_by b = (Py.Ok (kind, value), b) ->
  exists rest,
    received (fill_in_field located self input_text hook_value locate_by b).2 =
    received b ++ find_element kind value :: rest.
Proof.
  intros Hres. unfold fill_in_field, Py.bind. rewrite Hres.
  unfold driver_find_element, call_driver, Py.bind, Py.modify, Py.get, lift, Py.ret. simpl.
  destruct (located _ kind value); simpl.
  - eexists. by rewrite <- app_assoc.
  - by eexists.
Qed.

(** X15: for a name the registry holds, both resolution paths arrive at
    the pair stored under it: a decorated method runs its body on the
    stored value and kind, and [fill_in_field] asks the driver for the
    element with the stored kind and value. *)
Theorem registered_name_resolves_to_stored_pair
    driver_fn self registry (nm : string) hook input_text b :
  hooks self = Some registry ->
  Hooks.hooks registry !! nm = Some hook ->
  check_locate_by driver_fn self (Py.VStr nm) locate_by_default b =
    driver_fn self (member hook "value") (member hook "type") b /\
  _check_locate_by self (Py.VStr nm) locate_by_default b =
    (Py.Ok (member hook "type", member hook "value"), b) /\
  exists rest,
    received (fill_in_field located self input_text (Py.VStr nm) locate_by_default b).2 =
    received b ++ find_element (member hook "type") (member hook "value") :: rest.
Proof.
  intros Hsome Hnm.
  assert (_check_locate_by self (Py.VStr nm) locate_by_default b =
          (Py.Ok (member hook "type", member hook "value"), b)) as Hres.
  { unfold _check_locate_by, Py.bind, lift. rewrite Hsome. simpl.
    by rewrite (get_hook_present _ _ _ Hnm). }
  split_and!; [|done|by apply fill_in_field_after_resolution].
  unfold check_locate_by, Hooks.get_hook_type, Hooks.get_hook_value.
  rewrite Hsome. simpl. by rewrite (get_hook_present _ _ _ Hnm).
Qed.

(** X16: for a name the registry does not hold, and no explicit kind, a
    decorated method and [fill_in_field] both fail with the AttributeError
    of the lookup, and the driver receives nothing. *)
Theorem unregistered_name_fails_before_the_driver
    driver_fn self registry hook_name input_text b :
  hooks self = Some registry ->
  dict_get (Hooks.hooks registry) hook_name = None ->
  check_locate_by driver_fn self hook_name locate_by_default b =
    (Py.Raise (Py.AttributeError "'NoneType' object has no attribute 'get'"), b) /\
  fill_in_field located self input_text hook_name locate_by_default b =
    (Py.Raise (Py.AttributeError "'NoneType' object has no attribute 'get'"), b).
Proof.
  intros Hsome Hnm. split.
  - unfold check_locate_by, Hooks.get_hook_type, Py.bind, lift. rewrite Hsome. simpl.
    by rewrite (get_hook_absent _ _ Hnm).
  - unfold fill_in_field, _check_locate_by, Py.bind, lift. rewrite Hsome. simpl.
    by rewrite (get_hook_absent _ _ Hnm).
Qed.

(** X17: the decorator reaches the wrapped method from one branch only.
    Whenever no registry is configured or [locate_by] is given, the call
    returns [None] and the driver receives nothing, for every wrapped
    method, every registry content and every locator. *)
Theorem decorated_call_is_dropped_unless_looked_up
    driver_fn self hook_value locate_by b :
  hooks self = None \/ Py.is_False locate_by = false ->
  check_locate_by driver_fn self hook_value locate_by b = (Py.Ok Py.VNone, b).
Proof.
  intros [Hnone|Hkind]; unfold check_locate_by.
  - by rewrite Hnone.
  - destruct (hooks self); by rewrite ?Hkind.
Qed.

End NamedHooks.

Section NamedHooksExamples.
Import DriverInterface.

Lemma registered_name_resolves_to_stored_pair_witness :
  select_element strict_located session_with_hooks (Py.VStr "login_button")
    locate_by_default studio =
    select_element_body strict_located session_with_hooks
      (Py.VStr "btn1") (Py.VStr "id") studio /\
  _check_locate_by session_with_hooks (Py.VStr "login_button") locate_by_default studio =
    (Py.Ok (Py.VStr "id", Py.VStr "btn1"), studio) /\
  exists rest,
    received (fill_in_field strict_located session_with_hooks (Py.VStr "secret")
                (Py.VStr "login_button") locate_by_default studio).2 =
    received studio ++ find_element (Py.VStr "id") (Py.VStr "btn1") :: rest.
Proof.
  apply (registered_name_resolves_to_stored_pair strict_located
           (select_element_body strict_located) session_with_hooks login_hooks
           "login_button"
           (hook_object {| name := "login_button"; kind := "id"; value := "btn1" |})
           (Py.VStr "secret") studio).
  - reflexivity.
  - vm_compute. reflexivity.
Defined.

Lemma unregistered_name_fails_before_the_driver_witness :
  select_element strict_located session_with_hooks (Py.VStr "logout_button")
    locate_by_default studio =
    (Py.Raise (Py.AttributeError "'NoneType' object has no attribute 'get'"), studio) /\
  fill_in_field strict_located session_with_hooks (Py.VStr "secret")
    (Py.VStr "logout_button") locate_by_default studio =
    (Py.Raise (Py.AttributeError "'NoneType' object has no attribute 'get'"), studio).
Proof.
  apply (unregistered_name_fails_before_the_driver strict_located
           (select_element_body strict_located) session_with_hooks login_hooks
           (Py.VStr "logout_button") (Py.VStr "secret") studio).
  - reflexivity.
  - vm_compute. reflexivity.
Defined.

Lemma decorated_call_is_dropped_unless_looked_up_witness :
  hover_over_element strict_located session_with_hooks (Py.VStr "//a")
    (Py.VStr LocateBy.XPATH) studio = (Py.Ok Py.VNone, studio).
Proof.
  apply (decorated_call_is_dropped_unless_looked_up
           (hover_over_element_body strict_located) session_with_hooks
           (Py.VStr "//a") (Py.VStr LocateBy.XPATH) studio).
  right. reflexivity.
Defined.

End NamedHooksExamples.

(** ** Screenshot paths *)

Section ScreenshotPaths.
Import PyStr DriverInterface.

Implicit Types (d t : string) (c : ascii).

Lemma digit_is_not_sep x : pretty_N_char x <> sep.
Proof. unfold pretty_N_char. by repeat case_match. Qed.

Lemma pretty_N_go_no_sep x s : sep ∉ chars s -> sep ∉ chars (pretty_N_go x s).
Proof.
  revert s. induction (N.lt_wf_0 x) as [x _ IH]; intros s Hs.
  destruct (decide (x = 0%N)) as [->|Hx]; [by rewrite pretty_N_go_0|].
  rewrite pretty_N_go_step by lia. apply IH; [apply N.div_lt; lia|].
  rewrite chars_cons. apply not_elem_of_cons. split; [|done].
  intros Heq. by apply (digit_is_not_sep (x `mod` 10)%N).
Qed.

Lemma pretty_nat_no_sep (n : nat) : sep ∉ chars (pretty n).
Proof.
  unfold pretty, pretty_nat, pretty, pretty_N. case_decide.
  - vm_compute. intros Hin. apply elem_of_cons in Hin as [Hin|Hin]; [discriminate|].
    by apply elem_of_nil in Hin.
  - apply pretty_N_go_no_sep. apply not_elem_of_nil.
Qed.

(** The name of the file: base name, dash, number, extension. *)
Lemma file_name_no_sep (file_name : string) (n : nat) :
  sep ∉ chars file_name ->
  sep ∉ chars (file_name +:+ "-" +:+ pretty n +:+ ".png").
Proof.
  intros Hfile. rewrite !chars_app, !not_elem_of_app.
  split_and!; [done| |apply pretty_nat_no_sep|];
    vm_compute; intros Hin;
    repeat (apply elem_of_cons in Hin as [Hin|Hin]; [discriminate Hin|]);
    by apply elem_of_nil in Hin.
Qed.

Lemma file_name_not_empty (file_name : string) (n : nat) :
  exists c r, file_name +:+ "-" +:+ pretty n +:+ ".png" = String c r.
Proof. destruct file_name as [|c r]; by eexists _, _. Qed.

Lemma cut_last_sep_no_sep t : sep ∉ chars t -> cut_last_sep t = ("", t).
Proof.
  induction t as [|c t IH]; intros Ht; [done|].
  rewrite chars_cons in Ht. apply not_elem_of_cons in Ht as [Hc Ht].
  cbn [cut_last_sep]. rewrite IH by done.
  rewrite bool_decide_eq_false_2; [done|]. by intros ->.
Qed.

Lemma cut_last_sep_behind d t :
  sep ∉ chars t ->
  cut_last_sep (d +:+ String sep t) = (d +:+ String sep "", t).
Proof.
  intros Ht. induction d as [|c d IH].
  - rewrite !app_nil_str. cbn [cut_last_sep]. rewrite cut_last_sep_no_sep by done.
    by rewrite bool_decide_eq_true_2.
  - rewrite !app_cons_str. cbn [cut_last_sep]. rewrite IH.
    by destruct d.
Qed.

Lemma rstrip_sep_behind d : rstrip_sep (d +:+ String sep "") = rstrip_sep d.
Proof.
  induction d as [|c d IH]; [done|].
  rewrite app_cons_str. cbn [rstrip_sep]. by rewrite IH.
Qed.

Lemma rstrip_sep_ends_in_other d c :
  c <> sep -> rstrip_sep (d +:+ String c "") = d +:+ String c "".
Proof.
  intros Hc. induction d as [|a d IH].
  - rewrite app_nil_str. cbn [rstrip_sep]. by rewrite bool_decide_eq_false_2.
  - rewrite app_cons_str. cbn [rstrip_sep]. rewrite IH. by destruct d.
Qed.

(** A directory written with one separator at its end is known under the
    path without it. *)
Lemma strip_dir_trailing_sep d c :
  c <> sep -> strip_dir ((d +:+ String c "") +:+ String sep "") = d +:+ String c "".
Proof.
  intros Hc. unfold strip_dir. rewrite rstrip_sep_behind, rstrip_sep_ends_in_other by done.
  by destruct d.
Qed.

Lemma strip_dir_no_trailing_sep d c :
  c <> sep -> strip_dir (d +:+ String c "") = d +:+ String c "".
Proof.
  intros Hc. unfold strip_dir. rewrite rstrip_sep_ends_in_other by done. by destruct d.
Qed.

End ScreenshotPaths.

Section ScreenshotOutcomes.
Import PyStr DriverInterface.

Implicit Types (self : DriverActions) (b : browser) (es : gset string).

(** The call on a directory that can be listed comes down to the one call
    of [save_screenshot]. *)
Lemma take_screenshot_in_listed_directory self (directory file_name : string) b es :
  directory <> "" ->
  fs b !! strip_dir directory = Some es ->
  take_screenshot self (Some directory) file_name b =
  match driver_save_screenshot
          (directory +:+ file_name +:+ "-" +:+ pretty (size es) +:+ ".png") b with
  | (Py.Ok _, b') => (Py.Ok Py.VNone, b')
  | (Py.Raise e, b') => (Py.Raise e, b')
  end.
Proof.
  intros Hne Hdir. unfold take_screenshot, Py.bind, Py.ret, os_listdir. simpl.
  destruct directory as [|c directory]; [done|]. rewrite Hdir. simpl.
  by destruct (driver_save_screenshot _ b) as [[?|?] ?].
Qed.

(** Saving into a known directory. *)
Lemma driver_save_screenshot_in dir name c r b es :
  name = String c r ->
  sep ∉ chars name ->
  dir <> "" -> strip_dir (dir +:+ String sep "") = dir ->
  fs b !! dir = Some es ->
  driver_save_screenshot ((dir +:+ String sep "") +:+ name) b =
  (Py.Ok true,
   {| received := received b ++ [save_screenshot ((dir +:+ String sep "") +:+ name)];
      fs := <[dir := es ∪ {[name]}]> (fs b) |}).
Proof.
  intros Hname Hsep Hdir Hstrip Hes.
  unfold driver_save_screenshot, Py.bind, call_driver, Py.modify, os_path_split. simpl.
  rewrite app_assoc_str, app_nil_str || rewrite app_assoc_str.
  change (String sep "" +:+ name) with (String sep name).
  rewrite cut_last_sep_behind by done. rewrite Hstrip.
  replace (directory_of dir) with dir by (by destruct dir).
  rewrite Hes. subst name. simpl. done.
Qed.

(** X18: the naming rule.  For a directory that can be listed, the one path
    handed to the driver is the directory string, the base name, a dash,
    the number of entries the directory has at that moment, and [.png],
    put together with no separator of their own; the call returns [None]. *)
Theorem screenshot_is_numbered_by_the_listing
    self (directory file_name : string) b es :
  directory <> "" ->
  fs b !! strip_dir directory = Some es ->
  (take_screenshot self (Some directory) file_name b).1 = Py.Ok Py.VNone /\
  received (take_screenshot self (Some directory) file_name b).2 =
  received b ++
    [save_screenshot (directory +:+ file_name +:+ "-" +:+ pretty (size es) +:+ ".png")].
Proof.
  intros Hne Hdir. rewrite (take_screenshot_in_listed_directory _ _ _ _ es) by done.
  unfold driver_save_screenshot, Py.bind, call_driver, Py.modify. simpl.
  repeat case_match; simplify_eq/=; done.
Qed.

(** With the separator at the end of the directory string, the split of
    the path gives the directory back and the file is entered there. *)
Lemma take_screenshot_enters_file
    self (d : string) (c : ascii) (file_name : string) b es :
  c <> sep ->
  sep ∉ chars file_name ->
  fs b !! (d +:+ String c "") = Some es ->
  take_screenshot self (Some ((d +:+ String c "") +:+ "/")) file_name b =
  (Py.Ok Py.VNone,
   {| received := received b ++
        [save_screenshot (((d +:+ String c "") +:+ "/") +:+
                          file_name +:+ "-" +:+ pretty (size es) +:+ ".png")];
      fs := <[d +:+ String c "" :=
                es ∪ {[file_name +:+ "-" +:+ pretty (size es) +:+ ".png"]}]> (fs b) |}).
Proof.
  intros Hc Hfile Hes.
  destruct (file_name_not_empty file_name (size es)) as (a & r & Hname).
  rewrite (take_screenshot_in_listed_directory _ _ _ _ es).
  - change "/" with (String sep "").
    rewrite (driver_save_screenshot_in _ _ a r b es); first done; try done.
    + by apply file_name_no_sep.
    + by destruct d.
    + by apply strip_dir_trailing_sep.
  - by destruct d.
  - change "/" with (String sep ""). by rewrite strip_dir_trailing_sep.
Qed.


End ScreenshotOutcomes.

Section ScreenshotSequences.
Import PyStr DriverInterface.

Implicit Types (self : DriverActions) (b : browser) (es : gset string).


(** X21: a name that is already taken is written over and the count does
    not move.  With the separator at the end of the directory string, when
    the directory already holds [base-n.png] for its own number of entries
    [n], the call leaves the file system as it was, so every later call
    writes that same path again. *)
Theorem taken_screenshot_name_is_written_over
    self (d : string) (c : ascii) (file_name : string) b es :
  c <> sep ->
  sep ∉ chars file_name ->
  fs b !! (d +:+ String c "") = Some es ->
  file_name +:+ "-" +:+ pretty (size es) +:+ ".png" ∈ es ->
  let directory := (d +:+ String c "") +:+ "/" in
  let b1 := (take_screenshot self (Some directory) file_name b).2 in
  fs b1 = fs b /\
  received (take_screenshot self (Some directory) file_name b1).2 =
  received b ++
    [save_screenshot (directory +:+ file_name +:+ "-" +:+ pretty (size es) +:+ ".png");
     save_screenshot (directory +:+ file_name +:+ "-" +:+ pretty (size es) +:+ ".png")].
Proof.
  intros Hc Hfile Hes Htaken directory b1. unfold b1, directory.
  rewrite (take_screenshot_enters_file self d c file_name b es) by done. simpl.
  assert (es ∪ {[file_name +:+ "-" +:+ pretty (size es) +:+ ".png"]} = es) as ->.
  { apply set_eq. intros x. rewrite elem_of_union, elem_of_singleton.
    split; [by intros [?| ->]|by left]. }
  rewrite insert_id by done. split; [done|].
  rewrite (take_screenshot_enters_file self d c file_name _ es) by done. simpl.
  by rewrite <- app_assoc.
Qed.







End ScreenshotSequences.

Section ScreenshotExamples.
Import PyStr DriverInterface.

Ltac no_sep :=
  vm_compute; intros Hin;
  repeat (apply elem_of_cons in Hin as [Hin|Hin]; [discriminate Hin|]);
  by apply elem_of_nil in Hin.

Lemma screenshot_is_numbered_by_the_listing_witness :
  (take_screenshot session_with_hooks (Some "shots") "shot" studio).1 = Py.Ok Py.VNone /\
  received (take_screenshot session_with_hooks (Some "shots") "shot" studio).2 =
  received studio ++ [save_screenshot "shotsshot-3.png"].
Proof.
  assert ("shots" <> "") as Hne by discriminate.
  assert (fs studio !! strip_dir "shots" = Some {[ "a.png"; "b.png"; "c.png" ]}) as Hdir
    by (vm_compute; reflexivity).
  exact (screenshot_is_numbered_by_the_listing session_with_hooks "shots" "shot" studio
           {[ "a.png"; "b.png"; "c.png" ]} Hne Hdir).
Defined.



Lemma taken_screenshot_name_is_written_over_witness :
  fs (take_screenshot session_with_hooks (Some "shots/") "shot" studio_with_shot).2 =
    fs studio_with_shot /\
  received (take_screenshot session_with_hooks (Some "shots/") "shot"
              (take_screenshot session_with_hooks (Some "shots/") "shot" studio_with_shot).2).2 =
  received studio_with_shot ++
    [save_screenshot "shots/shot-3.png"; save_screenshot "shots/shot-3.png"].
Proof.
  assert ("s"%char <> sep) as Hc by discriminate.
  assert (sep ∉ chars "shot") as Hfile by no_sep.
  assert (fs studio_with_shot !! ("shot" +:+ "s")
          = Some {[ "a.png"; "b.png"; "shot-3.png" ]}) as Hes
    by (vm_compute; reflexivity).
  assert ("shot" +:+ "-" +:+ pretty (size ({[ "a.png"; "b.png"; "shot-3.png" ]} : gset string))
            +:+ ".png" ∈ ({[ "a.png"; "b.png"; "shot-3.png" ]} : gset string)) as Htaken
    by (apply (proj1 (bool_decide_eq_true _)); vm_compute; reflexivity).
  exact (taken_screenshot_name_is_written_over session_with_hooks
           "shot" "s" "shot" studio_with_shot {[ "a.png"; "b.png"; "shot-3.png" ]}
           Hc Hfile Hes Htaken).
Defined.




End ScreenshotExamples.

(** ** Capabilities, drivers and construction *)

Section Capabilities.
Import DriverInterface.

Variable CURRENT_DIR __version__ : string.
Variable files : gmap string capability_file.
Variable hook_files : string -> Py.result (list Hook).
Variable install : manager -> Py.result string.
Variable start : webdriver -> string -> Py.result nat.

Implicit Types (self : DriverHelper.t) (caps : capabilities) (w : list launch).

Lemma equals_str_false v name : v <> Py.VStr name -> equals_str v name = false.
Proof.
  intros Hne. destruct v as [| | |s]; try done. simpl.
  apply bool_decide_eq_false_2. by intros ->.
Qed.

Lemma equals_str_true v name : equals_str v name = true -> v = Py.VStr name.
Proof.
  destruct v as [| | |s]; try done. simpl. by intros ->%bool_decide_eq_true_1.
Qed.

Lemma equals_str_refl name : equals_str (Py.VStr name) name = true.
Proof. simpl. by apply bool_decide_eq_true_2. Qed.

Lemma started_installs d m w :
  exists rest, (DriverHelper.started install start d m w).2 = w ++ Install m :: rest.
Proof.
  unfold DriverHelper.started, Py.bind, DriverHelper.manager_install,
    DriverHelper.webdriver_start.
  destruct (install m) as [executable|err]; simpl; eexists.
  - by rewrite <- app_assoc.
  - done.
Qed.

Lemma load_driver_unsupported caps w :
  unsupported (browserName caps) ->
  DriverHelper.load_driver install start caps w =
  (Py.Raise (Py.Exception_
     "Unable to identify browser to load driver, check your capability file contains the correct value for browser name."),
   w).
Proof.
  intros Hun. unfold DriverHelper.load_driver.
  rewrite !equals_str_false; [done|apply Hun; unfold supported_browsers..].
  all: repeat (first [apply list_elem_of_here | apply list_elem_of_further]).
Qed.

(** X24: [load_driver] installs nothing exactly when the browser name of
    the capabilities is none of the six lower-case names it knows; it then
    raises its own Exception.  For each of the six, a driver manager is
    asked to install before anything else happens. *)
Theorem load_driver_installs_unless_unsupported caps w :
  ((DriverHelper.load_driver install start caps w).2 = w <->
   unsupported (browserName caps)) /\
  (unsupported (browserName caps) ->
   (DriverHelper.load_driver install start caps w).1 =
   Py.Raise (Py.Exception_
     "Unable to identify browser to load driver, check your capability file contains the correct value for browser name.")) /\
  (~ unsupported (browserName caps) ->
   exists m rest, (DriverHelper.load_driver install start caps w).2 = w ++ Install m :: rest).
Proof.
  assert (~ unsupported (browserName caps) ->
          exists m rest,
            (DriverHelper.load_driver install start caps w).2 = w ++ Install m :: rest)
    as Hsupported.
  { intros Hsup. unfold DriverHelper.load_driver.
    repeat (case_match;
            [match goal with
             | |- context [DriverHelper.started _ _ ?d ?m _] =>
                 destruct (started_installs d m w) as [rest Hrest]; by exists m, rest
             end|]).
    destruct Hsup. intros name Hin Heq.
    unfold supported_browsers in Hin.
    repeat (apply elem_of_cons in Hin as [->|Hin];
            [rewrite Heq in *; by rewrite ?equals_str_refl in *|]).
    by apply elem_of_nil in Hin. }
  split_and!; [|intros Hun; by rewrite load_driver_unsupported|done].
  split.
  - intros Hsame name Hin Heq.
    destruct Hsupported as (m & rest & Hrest); [intros Hun; by apply (Hun name)|].
    rewrite Hrest in Hsame.
    apply (f_equal length) in Hsame. rewrite length_app in Hsame. simpl in Hsame. lia.
  - intros Hun. by rewrite load_driver_unsupported.
Qed.

End Capabilities.

Section LoadingAndConstruction.
Import DriverInterface.

Variable CURRENT_DIR __version__ : string.
Variable driver_setup : DriverHelper.t.
Variable files : gmap string capability_file.
Variable hook_files : string -> Py.result (list Hook).
Variable install : manager -> Py.result string.
Variable start : webdriver -> string -> Py.result nat.

Implicit Types (caps : capabilities) (w : list launch).

Lemma subscript_ok {V} (d : gmap string V) key v :
  d !! key = Some v -> subscript d key = Py.Ok v.
Proof. intros Hkey. unfold subscript. by rewrite Hkey. Qed.

Lemma subscript_is_ok {V} (d : gmap string V) key v :
  subscript d key = Py.Ok v -> d !! key = Some v.
Proof. unfold subscript. destruct (d !! key); by intros [= ->]. Qed.

Ltac split_lookups H :=
  unfold DriverHelper.load_capability, and_then, subscript in H;
  repeat match type of H with
         | context [match ?d !! ?k with _ => _ end] =>
             destruct (d !! k) eqn:?; simpl in H
         | context [match chromeOptions ?f with _ => _ end] =>
             destruct (chromeOptions f) eqn:?; simpl in H
         end.

(** A descriptor comes from a file that has everything that is read. *)
Lemma load_capability_inv (platform capability : Py.value) caps :
  DriverHelper.load_capability CURRENT_DIR __version__ files
    driver_setup platform capability = Py.Ok caps ->
  exists cap_file options,
    files !! DriverHelper.capability_path CURRENT_DIR driver_setup platform capability
      = Some cap_file /\
    entries cap_file !! "deviceName" = Some (deviceName caps) /\
    entries cap_file !! "browserName" = Some (browserName caps) /\
    entries cap_file !! "platformVersion" = Some (platformVersion caps) /\
    entries cap_file !! "platformName" = Some (platformName caps) /\
    entries cap_file !! "rotatable" = Some (rotatable caps) /\
    entries cap_file !! "deviceOrientation" = Some (deviceOrientation caps) /\
    chromeOptions cap_file = Some options /\
    options !! "w3c" = Some (chromeOptions_w3c caps).
Proof.
  intros Hload. split_lookups Hload; try discriminate Hload.
  injection Hload as <-. eexists _, _. by split_and!.
Qed.

(** With the file in place, the only failure is a missing entry. *)
Lemma load_capability_error (platform capability : Py.value) cap_file err :
  files !! DriverHelper.capability_path CURRENT_DIR driver_setup platform capability
    = Some cap_file ->
  DriverHelper.load_capability CURRENT_DIR __version__ files
    driver_setup platform capability = Py.Raise err ->
  exists key, err = Py.KeyError key.
Proof.
  intros Hfile Hload. unfold DriverHelper.load_capability in Hload.
  rewrite Hfile in Hload. split_lookups Hload; try discriminate Hload;
    injection Hload as <-; by eexists.
Qed.

Lemma load_capability_complete (platform capability : Py.value) cap_file options :
  files !! DriverHelper.capability_path CURRENT_DIR driver_setup platform capability
    = Some cap_file ->
  (forall key, key ∈ required_entries -> is_Some (entries cap_file !! key)) ->
  chromeOptions cap_file = Some options ->
  is_Some (options !! "w3c") ->
  exists caps,
    DriverHelper.load_capability CURRENT_DIR __version__ files
      driver_setup platform capability = Py.Ok caps.
Proof.
  intros Hfile Hreq Hopt [w3c Hw3c]. unfold DriverHelper.load_capability.
  rewrite Hfile, Hopt. unfold required_entries in Hreq.
  destruct (Hreq "deviceName") as [v1 H1];
    [repeat (first [apply list_elem_of_here | apply list_elem_of_further])|].
  destruct (Hreq "browserName") as [v2 H2];
    [repeat (first [apply list_elem_of_here | apply list_elem_of_further])|].
  destruct (Hreq "platformVersion") as [v3 H3];
    [repeat (first [apply list_elem_of_here | apply list_elem_of_further])|].
  destruct (Hreq "platformName") as [v4 H4];
    [repeat (first [apply list_elem_of_here | apply list_elem_of_further])|].
  destruct (Hreq "rotatable") as [v5 H5];
    [repeat (first [apply list_elem_of_here | apply list_elem_of_further])|].
  destruct (Hreq "deviceOrientation") as [v6 H6];
    [repeat (first [apply list_elem_of_here | apply list_elem_of_further])|].
  rewrite (subscript_ok _ _ _ H1), (subscript_ok _ _ _ H2), (subscript_ok _ _ _ H3),
    (subscript_ok _ _ _ H4), (subscript_ok _ _ _ H5), (subscript_ok _ _ _ H6).
  simpl. rewrite (subscript_ok _ _ _ Hw3c). simpl. by eexists.
Qed.

(** X25: [load_capability] raises ['Capability Not Found!'] exactly when
    no capability file stands at
    [CURRENT_DIR\capability_dir\platform\capability.json], and it returns
    a descriptor exactly when the file is there and has the six entries it
    reads and [w3c] under [chromeOptions]; the descriptor then carries the
    file's browser name unchanged. *)
Theorem load_capability_outcomes (platform capability : Py.value) :
  let path := DriverHelper.capability_path CURRENT_DIR driver_setup platform capability in
  let loaded := DriverHelper.load_capability CURRENT_DIR __version__ files
                  driver_setup platform capability in
  (loaded = Py.Raise (Py.Exception_ "Capability Not Found!") <-> files !! path = None) /\
  ((exists caps, loaded = Py.Ok caps) <->
   exists cap_file options,
     files !! path = Some cap_file /\
     (forall key, key ∈ required_entries -> is_Some (entries cap_file !! key)) /\
     chromeOptions cap_file = Some options /\ is_Some (options !! "w3c")) /\
  (forall caps cap_file,
     loaded = Py.Ok caps -> files !! path = Some cap_file ->
     entries cap_file !! "browserName" = Some (browserName caps)).
Proof.
  intros path loaded. split_and!.
  - split.
    + intros Hraise. destruct (files !! path) as [cap_file|] eqn:Hfile; [|done].
      destruct (load_capability_error platform capability cap_file _ Hfile Hraise)
        as [key Hkey]. discriminate Hkey.
    + intros Hfile. unfold loaded, DriverHelper.load_capability. fold path.
      by rewrite Hfile.
  - split.
    + intros [caps Hcaps].
      destruct (load_capability_inv platform capability caps Hcaps)
        as (cap_file & options & Hfile & H1 & H2 & H3 & H4 & H5 & H6 & Hopt & H7).
      exists cap_file, options. split_and!; [done| |done|by eexists].
      intros key Hin. unfold required_entries in Hin.
      repeat (apply elem_of_cons in Hin as [->|Hin]; [by eexists|]).
      by apply elem_of_nil in Hin.
    + intros (cap_file & options & Hfile & Hreq & Hopt & Hw3c).
      by apply (load_capability_complete platform capability cap_file options).
  - intros caps cap_file Hcaps Hfile.
    destruct (load_capability_inv platform capability caps Hcaps)
      as (cap_file' & options & Hfile' & H1 & H2 & _).
    fold path in Hfile'. congruence.
Qed.

(** X26: construction stops before anything is installed or started when
    the capability cannot be loaded or names a browser that is none of the
    six: [DriverActions(...)] raises the error of that step and the
    outside has seen nothing. *)
Theorem construction_fails_before_any_launch
    (platform capability hook_file_name : Py.value) w err :
  let loaded := DriverHelper.load_capability CURRENT_DIR __version__ files
                  driver_setup platform capability in
  loaded = Py.Raise err \/
  (exists caps, loaded = Py.Ok caps /\ unsupported (browserName caps) /\
     err = Py.Exception_
       "Unable to identify browser to load driver, check your capability file contains the correct value for browser name.") ->
  new_DriverActions CURRENT_DIR __version__ driver_setup files hook_files install start
    platform capability hook_file_name w = (Py.Raise err, w).
Proof.
  intros loaded [Hraise|(caps & Hcaps & Hun & ->)];
    unfold new_DriverActions, Py.bind, lift; fold loaded.
  - by rewrite Hraise.
  - rewrite Hcaps. by rewrite (load_driver_unsupported install start caps w Hun).
Qed.

(** X27: a session constructed without a hook file cannot reach the driver
    through any decorated method: whatever the locator and whether or not
    a kind is given, the call returns [None] and the driver receives
    nothing. *)
Theorem session_without_hook_file_drops_decorated_calls
    (platform capability : Py.value) w made w'
    (driver_fn : DriverActions -> Py.value -> Py.value -> Py.M browser Py.value)
    (hook_value locate_by : Py.value) (b : browser) :
  new_DriverActions CURRENT_DIR __version__ driver_setup files hook_files install start
    platform capability (Py.VBool false) w = (Py.Ok made, w') ->
  hooks (actions made) = None /\
  check_locate_by driver_fn (actions made) hook_value locate_by b = (Py.Ok Py.VNone, b).
Proof.
  intros Hnew. unfold new_DriverActions, Py.bind, lift, Py.ret in Hnew. simpl in Hnew.
  destruct (DriverHelper.load_capability _ _ _ _ _ _) as [caps|?]; [|discriminate Hnew].
  destruct (DriverHelper.load_driver _ _ _ _) as [[drv|?] ?]; [|discriminate Hnew].
  injection Hnew as <- <-. simpl. split; [done|].
  by apply check_locate_by_without_registry.
Qed.

End LoadingAndConstruction.

Section LoadingAndConstructionExamples.
Import DriverInterface.

Example firefox_is_loaded :
  (new_DriverActions "C:\traverse\driver" "3.141.0" helper capability_store
     no_hook_files installs starts
     (Py.VStr "windows") (Py.VStr "firefox") (Py.VBool false) []).2 =
  [Install GeckoDriverManager; Start Firefox "driver.exe"].
Proof. vm_compute. reflexivity. Qed.

Lemma construction_fails_before_any_launch_witness :
  new_DriverActions "C:\traverse\driver" "3.141.0" helper capability_store
    no_hook_files installs starts
    (Py.VStr "windows") (Py.VStr "Chrome") (Py.VBool false) [] =
  (Py.Raise (Py.Exception_
     "Unable to identify browser to load driver, check your capability file contains the correct value for browser name."),
   []).
Proof.
  apply (construction_fails_before_any_launch "C:\traverse\driver" "3.141.0" helper
           capability_store no_hook_files installs starts
           (Py.VStr "windows") (Py.VStr "Chrome") (Py.VBool false) []).
  right. eexists. split; [vm_compute; reflexivity|]. split; [|reflexivity].
  intros name Hin Heq. simpl in Heq. injection Heq as <-.
  unfold supported_browsers in Hin.
  repeat (apply elem_of_cons in Hin as [Hin|Hin]; [discriminate Hin|]).
  by apply elem_of_nil in Hin.
Defined.

Lemma session_without_hook_file_drops_decorated_calls_witness :
  exists made w',
    new_DriverActions "C:\traverse\driver" "3.141.0" helper capability_store
      no_hook_files installs starts
      (Py.VStr "windows") (Py.VStr "firefox") (Py.VBool false) [] = (Py.Ok made, w') /\
    hooks (actions made) = None /\
    select_element strict_located (actions made) (Py.VStr "//button")
      (Py.VStr LocateBy.XPATH) studio = (Py.Ok Py.VNone, studio).
Proof.
  eexists _, _. split; [vm_compute; reflexivity|].
  eapply (session_without_hook_file_drops_decorated_calls "C:\traverse\driver" "3.141.0"
            helper capability_store no_hook_files installs starts
            (Py.VStr "windows") (Py.VStr "firefox") []).
  vm_compute. reflexivity.
Defined.

End LoadingAndConstructionExamples.

(** ** Test records, by position *)

Section TestRecordIds.
Import CoreDetails.

(** X28: the record constructed at position [i] (counting from 0) of a
    run of constructions gets the counter's value at the start plus [i] as
    its id, so in a new process the ids are 0, 1, 2, ...; it starts in
    status [Untested]. *)
Theorem record_id_is_its_position (n : nat) (itr : count) (i : nat) :
  i < n ->
  exists t,
    (construct n itr).1 !! i = Some t /\
    test_id t = upcoming itr + i /\
    test_status t = TestStatus.UNTESTED.
Proof.
  revert itr i. induction n as [|n IH]; intros itr i Hi; [lia|].
  cbn. specialize (IH {| upcoming := S (upcoming itr) |}).
  destruct (construct n _) as [ts itr''] eqn:Hrest.
  destruct i as [|i].
  - eexists. split; [done|]. simpl. split; [lia|done].
  - destruct (IH i) as (t & Ht & Hid & Hstatus); [lia|].
    exists t. simpl in *. split; [done|]. split; [lia|done].
Qed.

(** X29: ids are not handed out again later in the process: every record
    of a later run of constructions has a larger id than every record of
    an earlier run, whatever the lengths of the runs. *)
Theorem ids_are_not_reused_later (n m : nat) (itr : count) (x y : nat) :
  x ∈ ids (construct n itr).1 ->
  y ∈ ids (construct m (construct n itr).2).1 ->
  x < y.
Proof.
  rewrite !construct_ids, construct_counter.
  intros Hx Hy. apply list_elem_of_In, in_seq in Hx. apply list_elem_of_In, in_seq in Hy.
  lia.
Qed.

End TestRecordIds.

Section TestRecordIdsExamples.
Import CoreDetails.

Lemma record_id_is_its_position_witness :
  exists t,
    (construct 3 itertools_count).1 !! 2 = Some t /\
    test_id t = upcoming itertools_count + 2 /\
    test_status t = TestStatus.UNTESTED.
Proof. apply (record_id_is_its_position 3 itertools_count 2). lia. Defined.

Lemma ids_are_not_reused_later_witness :
  1 ∈ ids (construct 2 itertools_count).1 /\
  2 ∈ ids (construct 1 (construct 2 itertools_count).2).1 /\
  1 < 2.
Proof.
  assert (1 ∈ ids (construct 2 itertools_count).1) as Hx
    by (vm_compute; apply list_elem_of_further, list_elem_of_here).
  assert (2 ∈ ids (construct 1 (construct 2 itertools_count).2).1) as Hy
    by (vm_compute; apply list_elem_of_here).
  split_and!; [done|done|].
  exact (ids_are_not_reused_later 2 1 itertools_count 1 2 Hx Hy).
Defined.

End TestRecordIdsExamples.

(** ** Items with a prefix and a suffix *)

Section AddChars.
Import PyStr StringHelper.

(** X30: [add_chars_to_list_items_start_end] keeps the number and the
    order of the items, and what it adds can be taken off again: cutting
    the start and end text from an item of the result gives the [str] of
    the item it was made from. *)
Theorem added_chars_can_be_cut_off
    (list_items : list Py.value) (start_char end_char : Py.value) (i : nat) item :
  list_items !! i = Some item ->
  length (add_chars_to_list_items_start_end list_items start_char end_char)
    = length list_items /\
  exists out,
    add_chars_to_list_items_start_end list_items start_char end_char !! i = Some out /\
    out = str start_char +:+ str item +:+ str end_char /\
    slice out (String.length (str start_char))
      (String.length out - String.length (str end_char)) = str item.
Proof.
  intros Hitem. unfold add_chars_to_list_items_start_end. split; [apply length_map|].
  eexists. split; [by rewrite list_lookup_fmap, Hitem|]. split; [done|].
  replace (String.length (str start_char +:+ str item +:+ str end_char)
           - String.length (str end_char))
    with (String.length (str start_char +:+ str item))
    by (rewrite !length_app_str; lia).
  apply slice_middle.
Qed.

End AddChars.

Section AddCharsExamples.
Import PyStr StringHelper.

Lemma added_chars_can_be_cut_off_witness :
  length (add_chars_to_list_items_start_end [Py.VInt 7; Py.VStr "ann"]
            (Py.VStr "<") (Py.VStr "/>")) = 2 /\
  exists out,
    add_chars_to_list_items_start_end [Py.VInt 7; Py.VStr "ann"]
      (Py.VStr "<") (Py.VStr "/>") !! 1 = Some out /\
    out = "<ann/>" /\
    slice out 1 (String.length out - 2) = "ann".
Proof.
  assert ([Py.VInt 7; Py.VStr "ann"] !! 1 = Some (Py.VStr "ann")) as Hitem by reflexivity.
  exact (added_chars_can_be_cut_off [Py.VInt 7; Py.VStr "ann"]
           (Py.VStr "<") (Py.VStr "/>") 1 (Py.VStr "ann") Hitem).
Defined.

End AddCharsExamples.
